(** * netbooks: the DRAGON and PANDA tutorial notebooks

    The repository consists of two Jupyter notebooks,
    [netZooPy/dragon_tutorial.ipynb] (Python) and
    [netZooR/panda_gtex_tutorial_server.ipynb] (R).  The development has
    three parts:

    - the code cells of both notebooks, written down statement by statement
      as syntax trees, together with the syntactic analyses used to talk
      about them (which routines are called, where control flow occurs,
      how values flow into the library calls);
    - a control-skeleton semantics for such scripts, in which every routine
      call may fail, used to state how errors travel;
    - executable models of the three computations that the notebooks carry
      out themselves: the DRAGON straight-line program, the index
      arithmetic of the PANDA edge tables and the expression filter. *)

From Stdlib Require Import List String Ascii ZArith Bool Lia QArith Qabs.

Scheme All for list.
Import ListNotations.
Local Open Scope string_scope.
Local Open Scope list_scope.
Local Open Scope Z_scope.

(* ================================================================= *)
(** ** Syntax of notebook code *)

Module Syntax.

(** Binary operators that occur in the notebooks. [Colon] is R's sequence
    operator [a:b], [Member] is [%in%], [IntDiv] is [%/%], [Mod] is [%%]. *)
Inductive binop : Type :=
| Add | Sub | IntDiv | Mod
| Equal | NotEqual | Less | Greater
| And | Member | Colon.

Inductive unop : Type :=
| Not.

(** Member access: [a$f], [a@f] (R) and [a.f] (Python). *)
Inductive access : Type :=
| Dollar | At | Dot.

(** Expressions.  Comments, layout and redundant parentheses are not
    represented; [0L], [1] and [200] are all integer literals. *)
Inductive expr : Type :=
| ENum (z : Z)                            (* integer literal *)
| EDec (s : string)                       (* decimal literal, as written *)
| EStr (s : string)                       (* string literal *)
| EBool (b : bool)                        (* TRUE / FALSE / T / F / True / False *)
| ENA                                     (* R's NA *)
| EVar (x : string)
| ECall (f : string) (args : list expr)   (* f(args); f as written, with its qualifier *)
| EKw (k : string) (e : expr)             (* keyword argument k = e *)
| EBin (op : binop) (a b : expr)
| EUn (op : unop) (a : expr)
| EIndex (a : expr) (idx : list expr)     (* a[i, j] *)
| EMissing                                (* an omitted index, as in a[i, ] *)
| ESlice (lo hi : expr)                   (* Python slice lo:hi *)
| EField (k : access) (a : expr) (f : string)
| ELambda (params : list string) (body : expr)  (* function(x) body *)
| EList (items : list expr)               (* Python list display [a, b] *)
| ETuple (items : list expr).             (* Python tuple, only as assignment target *)

Inductive stmt : Type :=
| SExpr (e : expr)                                  (* expression statement *)
| SAssign (lhs rhs : expr)                          (* lhs <- rhs, lhs = rhs *)
| SImport (module : string) (names : list string) (alias : option string)
| SIf (c : expr) (th el : list stmt)
| SFor (x : string) (seq : expr) (body : list stmt)
| STry (body handler : list stmt).                  (* try/except; not used by the notebooks *)

(** A code cell, with its position among all cells of the notebook
    (markdown cells included, counted from 0). *)
Record cell : Type := Cell { cell_no : nat; source : list stmt }.

Definition notebook : Type := list cell.

End Syntax.
Import Syntax.

(* ================================================================= *)
(** ** netZooPy/dragon_tutorial.ipynb *)

Module Dragon.

Definition cell1 : cell := Cell 1
  [ SImport "netZooPy.dragon" ["*"] None;
    SImport "matplotlib.pyplot" [] (Some "plt");
    SImport "numpy" [] (Some "np");
    SImport "mpl_toolkits.mplot3d" ["Axes3D"; "art3d"] None ].

Definition cell3 : cell := Cell 3
  [ SAssign (EVar "n") (ENum 1000);
    SAssign (EVar "p1") (ENum 500);
    SAssign (EVar "p2") (ENum 100) ].

Definition cell5 : cell := Cell 5
  [ SAssign (ETuple [EVar "X1"; EVar "X2"; EVar "Theta"; EVar "_"])
      (ECall "simulate_dragon_data"
         [ EKw "eta11" (EDec "0.005"); EKw "eta12" (EDec "0.005");
           EKw "eta22" (EDec "0.05");
           EKw "p1" (ENum 100); EKw "p2" (ENum 500);
           EKw "epsilon" (EList [EDec "0.1"; EDec "0.1"]);
           EKw "n" (EVar "n"); EKw "seed" (ENum 123) ]) ].

Definition cell7 : cell := Cell 7
  [ SAssign (EVar "X1") (ECall "Scale" [EVar "X1"]);
    SAssign (EVar "X2") (ECall "Scale" [EVar "X2"]);
    SExpr (EField Dot (EVar "X1") "shape");
    SExpr (EField Dot (EVar "X2") "shape") ].

Definition cell9 : cell := Cell 9
  [ SAssign (ETuple [EVar "lambdas"; EVar "lambdas_landscape"])
      (ECall "estimate_penalty_parameters_dragon" [EVar "X1"; EVar "X2"]);
    SExpr (ECall "print" [EVar "lambdas"]) ].

Definition cell11 : cell := Cell 11
  [ SAssign (EVar "fig") (ECall "plt.figure" []);
    SAssign (EVar "ax") (ECall "plt.axes" [EKw "projection" (EStr "3d")]);
    SAssign (EVar "x") (ECall "np.arange" [ENum 0; EDec "1.01"; EDec "0.01"]);
    SExpr (ECall "ax.contour3D"
             [ EVar "x"; EVar "x"; EVar "lambdas_landscape"; ENum 50;
               EKw "cmap" (EStr "binary") ]);
    SAssign (EVar "ind")
      (ECall "np.unravel_index"
         [ ECall "np.argmin" [EVar "lambdas_landscape"; EKw "axis" (EVar "None")];
           EField Dot (EVar "lambdas_landscape") "shape" ]);
    SExpr (ECall "ax.plot"
             [ EList [EIndex (EVar "x") [ECall "int" [EIndex (EVar "ind") [ENum 1]]]];
               EList [EIndex (EVar "x") [ECall "int" [EIndex (EVar "ind") [ENum 0]]]];
               EList [EIndex (EVar "lambdas_landscape")
                        [ ECall "int" [EIndex (EVar "ind") [ENum 0]];
                          ECall "int" [EIndex (EVar "ind") [ENum 1]] ]];
               EKw "markerfacecolor" (EStr "k"); EKw "markeredgecolor" (EStr "r");
               EKw "marker" (EStr "o");
               EKw "markersize" (ENum 7); EKw "alpha" (ENum 1) ]);
    SExpr (ECall "ax.set_xlabel" [EStr "$\lambda_1$"; EKw "fontsize" (ENum 16)]);
    SExpr (ECall "ax.set_ylabel"
             [EStr "$\lambda_2$"; EKw "labelpad" (ENum 15); EKw "fontsize" (ENum 16)]);
    SExpr (ECall "plt.show" []) ].

Definition cell13 : cell := Cell 13
  [ SAssign (EVar "r")
      (ECall "get_partial_correlation_dragon" [EVar "X1"; EVar "X2"; EVar "lambdas"]);
    SExpr (EField Dot (EVar "r") "shape") ].

Definition cell16 : cell := Cell 16
  [ SAssign (ETuple [EVar "adj_p_vals"; EVar "p_vals"])
      (ECall "estimate_p_values_dragon"
         [EVar "r"; EVar "n"; EVar "p1"; EVar "p2"; EVar "lambdas"]) ].

Definition cell19 : cell := Cell 19
  [ SExpr (ECall "plt.imshow"
             [EIndex (EVar "Theta") [ESlice (ENum 0) (ENum 20); ESlice (ENum 0) (ENum 20)]]);
    SExpr (ECall "plt.colorbar" []);
    SExpr (ECall "plt.show" []) ].

Definition cell21 : cell := Cell 21
  [ SExpr (ECall "plt.imshow"
             [EIndex (EVar "adj_p_vals") [ESlice (ENum 0) (ENum 20); ESlice (ENum 0) (ENum 20)]]);
    SExpr (ECall "plt.colorbar" []);
    SExpr (ECall "plt.show" []) ].

Definition dragon_tutorial : notebook :=
  [cell1; cell3; cell5; cell7; cell9; cell11; cell13; cell16; cell19; cell21].

End Dragon.

(* ================================================================= *)
(** ** netZooR/panda_gtex_tutorial_server.ipynb *)

Module Panda.

(** The recurring idiom [paste0(ppath, "file")]. *)
Definition data_path (file : string) : expr :=
  ECall "paste0" [EVar "ppath"; EStr file].

(** [a[1:nDiffs]], the leading entries of a vector. *)
Definition top (a : string) : expr :=
  EIndex (EVar a) [EBin Colon (ENum 1) (EVar "nDiffs")].

Definition cell1 : cell := Cell 1
  [ SAssign (EVar "runserver") (ENum 1) ].

Definition cell3 : cell := Cell 3
  [ SIf (EBin Equal (EVar "runserver") (ENum 0))
      [ SExpr (ECall "install.packages" [EStr "devtools"]);
        SExpr (ECall "library" [EVar "devtools"]);
        SExpr (ECall "devtools::install_github"
                 [EStr "netZoo/netZooR"; EKw "build_vignettes" (EBool false)]);
        SIf (EUn Not (ECall "requireNamespace"
                        [EStr "BiocManager"; EKw "quietly" (EBool true)]))
          [ SExpr (ECall "install.packages"
                     [ EStr "BiocManager";
                       EKw "repos" (EStr "http://cran.us.r-project.org") ]) ]
          [];
        SExpr (ECall "BiocManager::install" [EStr "fgsea"]);
        SExpr (ECall "install.packages" [EStr "ggplot2"]);
        SExpr (ECall "install.packages" [EStr "reshape2"]) ]
      [] ].

Definition cell5 : cell := Cell 5
  [ SIf (EBin Equal (EVar "runserver") (ENum 1))
      [ SAssign (EVar "ppath") (EStr "/opt/data/") ]
      [ SIf (EBin Equal (EVar "runserver") (ENum 0))
          [ SAssign (EVar "ppath") (EStr EmptyString) ]
          [] ] ].

Definition cell7 : cell := Cell 7
  [ SExpr (ECall "library" [EStr "netZooR"]);
    SExpr (ECall "library" [EStr "fgsea"]);
    SExpr (ECall "library" [EStr "ggplot2"]);
    SExpr (ECall "library" [EStr "reshape2"]);
    SExpr (ECall "library" [EStr "visNetwork"]) ].

Definition cell9 : cell := Cell 9
  [ SAssign (EVar "motif")
      (ECall "read.delim"
         [ data_path "motif_subset.txt";
           EKw "stringsAsFactors" (EBool false); EKw "header" (EBool false) ]);
    SExpr (EIndex (EVar "motif") [EBin Colon (ENum 1) (ENum 5); EMissing]) ].

Definition cell11 : cell := Cell 11
  [ SAssign (EVar "ppi")
      (ECall "read.delim"
         [ data_path "ppi_subset.txt";
           EKw "stringsAsFactors" (EBool false); EKw "header" (EBool false) ]);
    SExpr (EIndex (EVar "ppi") [EBin Colon (ENum 1) (ENum 5); EMissing]) ].

Definition cell13 : cell := Cell 13
  [ SAssign (EVar "exp")
      (ECall "read.delim"
         [ data_path "expression_tpm_lcl_blood_subset.txt";
           EKw "stringsAsFactors" (EBool false); EKw "check.names" (EBool false) ]) ].

Definition cell15 : cell := Cell 15
  [ SAssign (EVar "exp") (ECall "log2" [EBin Add (EVar "exp") (ENum 1)]) ].

Definition cell17 : cell := Cell 17
  [ SAssign (EVar "zero_na_counts")
      (ECall "apply"
         [ EVar "exp"; EKw "MARGIN" (ENum 1);
           EKw "FUN"
             (ELambda ["x"]
                (ECall "length"
                   [ EIndex (EVar "x")
                       [ EBin And (EUn Not (ECall "is.na" [EVar "x"]))
                                  (EBin NotEqual (EVar "x") (ENum 0)) ] ])) ]) ].

Definition cell19 : cell := Cell 19
  [ SAssign (EVar "exp")
      (EIndex (EVar "exp") [EBin Greater (EVar "zero_na_counts") (ENum 20); EMissing]) ].

Definition cell21 : cell := Cell 21
  [ SAssign (EVar "lcl_samples")
      (ECall "read.delim"
         [ data_path "LCL_samples.txt";
           EKw "header" (EBool false); EKw "stringsAsFactors" (EBool false) ]) ].

Definition cell23 : cell := Cell 23
  [ SAssign (EVar "lcl_exp")
      (EIndex (EVar "exp")
         [ EMissing;
           EBin Member (ECall "colnames" [EVar "exp"])
                   (EIndex (EVar "lcl_samples") [EMissing; ENum 1]) ]) ].

Definition cell25 : cell := Cell 25
  [ SAssign (EVar "wblood_samples")
      (ECall "read.delim"
         [ data_path "WholeBlood_samples.txt";
           EKw "header" (EBool false); EKw "stringsAsFactors" (EBool false) ]) ].

Definition cell27 : cell := Cell 27
  [ SAssign (EVar "wb_exp")
      (EIndex (EVar "exp")
         [ EMissing;
           EBin Member (ECall "colnames" [EVar "exp"])
                   (EIndex (EVar "wblood_samples") [EMissing; ENum 1]) ]) ].

Definition cell29 : cell := Cell 29
  [ SAssign (EVar "pandaLCL")
      (ECall "panda"
         [EVar "motif"; EVar "lcl_exp"; EVar "ppi"; EKw "mode" (EStr "intersection")]);
    SExpr (EVar "pandaLCL") ].

Definition cell31 : cell := Cell 31
  [ SAssign (EVar "pandaWB")
      (ECall "panda"
         [EVar "motif"; EVar "wb_exp"; EVar "ppi"; EKw "mode" (EStr "intersection")]);
    SExpr (EVar "pandaWB") ].

Definition cell33 : cell := Cell 33
  [ SAssign (EVar "regNetLCL") (EField At (EVar "pandaLCL") "regNet");
    SAssign (EVar "regNetWB") (EField At (EVar "pandaWB") "regNet");
    SExpr (EIndex (EVar "regNetLCL")
             [EBin Colon (ENum 1) (ENum 5); EBin Colon (ENum 1) (ENum 5)]) ].

Definition cell37 : cell := Cell 37
  [ SAssign (EVar "nDiffs") (ENum 200);
    SAssign (EVar "diffNet") (EField At (EVar "pandaLCL") "regNet");
    SAssign (EVar "nTFs") (EIndex (ECall "dim" [EVar "diffNet"]) [ENum 1]) ].

(** The statements shared, word for word, by the two cells that build the
    [edges] data frame (cells 39 and 47), up to [edges$arrows]. *)
Definition edges_common : list stmt :=
  [ SAssign (EVar "edges") (ECall "matrix" [ENum 0; EVar "nDiffs"; ENum 3]);
    SAssign (ECall "colnames" [EVar "edges"])
      (ECall "c" [EStr "from"; EStr "to"; EStr "value"]);
    SAssign (EVar "edges") (ECall "as.data.frame" [EVar "edges"]);
    SAssign (EVar "aa")
      (ECall "order"
         [ ECall "as.matrix" [ECall "abs" [EVar "diffNet"]];
           EKw "decreasing" (EBool true) ]);
    SAssign (EVar "bb")
      (ECall "sort"
         [ ECall "as.matrix" [ECall "abs" [EVar "diffNet"]];
           EKw "decreasing" (EBool true) ]);
    SAssign (EField Dollar (EVar "edges") "value")
      (EIndex (ECall "as.matrix" [EVar "diffNet"]) [top "aa"]);
    SAssign (EVar "geneIdsTop")
      (EBin Add
         (EBin IntDiv (top "aa") (EIndex (ECall "dim" [EVar "diffNet"]) [ENum 1]))
         (ENum 1));
    SAssign (EVar "tfIdsTop")
      (EBin Mod (top "aa") (EIndex (ECall "dim" [EVar "diffNet"]) [ENum 1]));
    SAssign (EIndex (EVar "tfIdsTop") [EBin Equal (EVar "tfIdsTop") (ENum 0)])
      (EVar "nTFs");
    SAssign (EField Dollar (EVar "edges") "to")
      (EIndex (ECall "colnames" [EVar "diffNet"]) [EVar "geneIdsTop"]);
    SAssign (EField Dollar (EVar "edges") "from")
      (EIndex (ECall "rownames" [EVar "diffNet"]) [EVar "tfIdsTop"]);
    SAssign (EField Dollar (EVar "edges") "arrows") (EStr "to") ].

Definition cell39 : cell := Cell 39
  (edges_common ++
   [ SAssign (EField Dollar (EVar "edges") "value")
       (EField Dollar (EVar "edges") "value") ]).

(** Cells 41 and 49 are the same text. *)
Definition nodes_source : list stmt :=
  [ SAssign (EVar "nodes")
      (ECall "data.frame"
         [ EKw "id"
             (ECall "unique"
                [ECall "as.vector"
                   [ECall "as.matrix"
                      [EIndex (EVar "edges") [EMissing; ECall "c" [ENum 1; ENum 2]]]]]);
           EKw "label"
             (ECall "unique"
                [ECall "as.vector"
                   [ECall "as.matrix"
                      [EIndex (EVar "edges") [EMissing; ECall "c" [ENum 1; ENum 2]]]]]) ]);
    SAssign (EField Dollar (EVar "nodes") "group")
      (ECall "ifelse"
         [ EBin Member (EField Dollar (EVar "nodes") "id") (EField Dollar (EVar "edges") "from");
           EStr "TF"; EStr "gene" ]) ].

Definition cell41 : cell := Cell 41 nodes_source.

(** Cells 43 and 51 are the same text. *)
Definition plot_source : list stmt :=
  [ SAssign (EVar "net")
      (ECall "visNetwork" [EVar "nodes"; EVar "edges"; EKw "width" (EStr "100%")]);
    SAssign (EVar "net")
      (ECall "visGroups"
         [ EVar "net"; EKw "groupname" (EStr "TF"); EKw "shape" (EStr "triangle");
           EKw "color"
             (ECall "list" [EKw "background" (EStr "purple"); EKw "border" (EStr "black")]) ]);
    SAssign (EVar "net")
      (ECall "visGroups"
         [ EVar "net"; EKw "groupname" (EStr "gene"); EKw "shape" (EStr "dot");
           EKw "color"
             (ECall "list" [EKw "background" (EStr "teal"); EKw "border" (EStr "black")]) ]);
    SExpr (ECall "visLegend"
             [ EVar "net"; EKw "main" (EStr "Legend"); EKw "position" (EStr "right");
               EKw "ncol" (ENum 1) ]) ].

Definition cell43 : cell := Cell 43 plot_source.

Definition cell45 : cell := Cell 45
  [ SAssign (EVar "nDiffs") (ENum 200);
    SAssign (EVar "diffNet")
      (EBin Sub (EField At (EVar "pandaLCL") "regNet")
                (EField At (EVar "pandaWB") "regNet")) ].

Definition cell47 : cell := Cell 47
  (edges_common ++
   [ SAssign (EField Dollar (EVar "edges") "color")
       (ECall "ifelse"
          [ EBin Greater (EField Dollar (EVar "edges") "value") (ENum 0);
            EStr "green"; EStr "red" ]);
     SAssign (EField Dollar (EVar "edges") "value")
       (ECall "abs" [EField Dollar (EVar "edges") "value"]) ]).

Definition cell49 : cell := Cell 49 nodes_source.

Definition cell51 : cell := Cell 51 plot_source.

Definition cell53 : cell := Cell 53
  [ SAssign (EVar "lcl_outdegree")
      (ECall "calcDegree" [EVar "pandaLCL"; EKw "type" (EStr "tf")]);
    SAssign (EVar "wb_outdegree")
      (ECall "calcDegree" [EVar "pandaWB"; EKw "type" (EStr "tf")]) ].

Definition cell55 : cell := Cell 55
  [ SAssign (EVar "lcl_indegree")
      (ECall "calcDegree" [EVar "pandaLCL"; EKw "type" (EStr "gene")]);
    SAssign (EVar "wb_indegree")
      (ECall "calcDegree" [EVar "pandaWB"; EKw "type" (EStr "gene")]) ].

Definition cell57 : cell := Cell 57
  [ SAssign (EVar "degreeDiff")
      (ECall "calcDegreeDifference"
         [EVar "pandaLCL"; EVar "pandaWB"; EKw "type" (EStr "gene")]);
    SExpr (ECall "head" [EVar "degreeDiff"]) ].

Definition cell59 : cell := Cell 59
  [ SAssign (EVar "pathways")
      (ECall "gmtPathways" [data_path "c2.cp.kegg.v7.0.symbols.gmt"]) ].

Definition cell61 : cell := Cell 61
  [ SAssign (EVar "degreeDiff_all")
      (ECall "read.delim"
         [ data_path "lclWB_indegreeDifference.rnk";
           EKw "stringsAsFactors" (EBool false); EKw "header" (EBool false) ]);
    SAssign (EVar "degreeDiff_all")
      (ECall "setNames"
         [ EIndex (EVar "degreeDiff_all") [EMissing; ENum 2];
           EIndex (EVar "degreeDiff_all") [EMissing; ENum 1] ]) ].

Definition cell63 : cell := Cell 63
  [ SAssign (EVar "fgseaRes")
      (ECall "fgsea"
         [ EVar "pathways"; EVar "degreeDiff_all";
           EKw "minSize" (ENum 15); EKw "maxSize" (ENum 500); EKw "nperm" (ENum 1000) ]);
    SExpr (ECall "head" [EVar "fgseaRes"]) ].

Definition cell65 : cell := Cell 65
  [ SAssign (EVar "sig")
      (EIndex (EVar "fgseaRes")
         [EBin Less (EField Dollar (EVar "fgseaRes") "padj") (EDec "0.05"); EMissing]) ].

Definition cell67 : cell := Cell 67
  [ SExpr (EIndex (EVar "sig")
             [ EIndex (ECall "order" [EField Dollar (EVar "sig") "NES"])
                 [EBin Colon (ENum 1) (ENum 10)];
               EMissing ]) ].

Definition cell69 : cell := Cell 69
  [ SAssign (EVar "dat") (ECall "data.frame" [EVar "fgseaRes"]);
    SAssign (EVar "fdrcut") (EDec "0.05");
    SAssign (EVar "dencol_neg") (EStr "blue");
    SAssign (EVar "dencol_pos") (EStr "red");
    SAssign (EVar "signnamelength") (ENum 4);
    SAssign (EVar "asp") (ENum 3);
    SAssign (EVar "charcut") (ENum 100) ].

Definition cell71 : cell := Cell 71
  [ SAssign (EVar "a") (ECall "as.character" [EField Dollar (EVar "dat") "pathway"]);
    SFor "j" (EBin Colon (ENum 1) (ECall "length" [EVar "a"]))
      [ SAssign (EIndex (EVar "a") [EVar "j"])
          (ECall "substr"
             [ EIndex (EVar "a") [EVar "j"];
               EBin Add (EVar "signnamelength") (ENum 2);
               ECall "nchar" [EIndex (EVar "a") [EVar "j"]] ]) ];
    SAssign (EVar "a") (ECall "tolower" [EVar "a"]);
    SFor "j" (EBin Colon (ENum 1) (ECall "length" [EVar "a"]))
      [ SIf (EBin Greater (ECall "nchar" [EIndex (EVar "a") [EVar "j"]]) (EVar "charcut"))
          [ SAssign (EIndex (EVar "a") [EVar "j"])
              (ECall "paste"
                 [ ECall "substr" [EIndex (EVar "a") [EVar "j"]; ENum 1; EVar "charcut"];
                   EStr "..."; EKw "sep" (EStr " ") ]) ]
          [] ];
    SAssign (EVar "a") (ECall "gsub" [EStr "_"; EStr " "; EVar "a"]);
    SAssign (EField Dollar (EVar "dat") "NAME") (EVar "a") ].

Definition cell73 : cell := Cell 73
  [ SAssign (EVar "dat2")
      (EIndex (EVar "dat")
         [ EBin Less (EIndex (EVar "dat") [EMissing; EStr "padj"]) (EVar "fdrcut");
           EMissing ]);
    SAssign (EVar "dat2")
      (EIndex (EVar "dat2")
         [ ECall "order" [EIndex (EVar "dat2") [EMissing; EStr "padj"]]; EMissing ]);
    SAssign (EField Dollar (EVar "dat2") "signature")
      (ECall "factor"
         [ EField Dollar (EVar "dat2") "NAME";
           ECall "rev" [ECall "as.character" [EField Dollar (EVar "dat2") "NAME"]] ]) ].

Definition cell75 : cell := Cell 75
  [ SAssign (EVar "sign_neg")
      (ECall "which" [EBin Less (EIndex (EVar "dat2") [EMissing; EStr "NES"]) (ENum 0)]);
    SAssign (EVar "sign_pos")
      (ECall "which" [EBin Greater (EIndex (EVar "dat2") [EMissing; EStr "NES"]) (ENum 0)]) ].

Definition cell77 : cell := Cell 77
  [ SAssign (EVar "signcol")
      (ECall "rep" [ENA; ECall "length" [EField Dollar (EVar "dat2") "signature"]]);
    SAssign (EIndex (EVar "signcol") [EVar "sign_neg"]) (EVar "dencol_neg");
    SAssign (EIndex (EVar "signcol") [EVar "sign_pos"]) (EVar "dencol_pos");
    SAssign (EVar "signcol") (ECall "rev" [EVar "signcol"]) ].

Definition cell79 : cell := Cell 79
  [ SAssign (EVar "g")
      (ECall "ggplot"
         [ EVar "dat2";
           ECall "aes"
             [EKw "x" (EVar "padj"); EKw "y" (EVar "signature"); EKw "size" (EVar "size")] ]);
    SExpr
      (EBin Add (EBin Add (EBin Add (EBin Add (EBin Add (EBin Add (EBin Add
         (EVar "g")
         (ECall "geom_point"
            [ ECall "aes" [EKw "fill" (EVar "NES")];
              EKw "shape" (ENum 21); EKw "colour" (EStr "white") ]))
         (ECall "theme_bw" []))
         (ECall "xlim" [ENum 0; EVar "fdrcut"]))
         (ECall "scale_size_area" [EKw "max_size" (ENum 10); EKw "guide" (EStr "none")]))
         (ECall "scale_fill_gradient2"
            [EKw "low" (EVar "dencol_neg"); EKw "high" (EVar "dencol_pos")]))
         (ECall "theme"
            [EKw "axis.text.y" (ECall "element_text" [EKw "colour" (EVar "signcol")])]))
         (ECall "theme"
            [ EKw "aspect.ratio" (EVar "asp");
              EKw "axis.title.y" (ECall "element_blank" []) ])) ].

Definition panda_gtex_tutorial_server : notebook :=
  [ cell1; cell3; cell5; cell7; cell9; cell11; cell13; cell15; cell17; cell19;
    cell21; cell23; cell25; cell27; cell29; cell31; cell33; cell37; cell39;
    cell41; cell43; cell45; cell47; cell49; cell51; cell53; cell55; cell57;
    cell59; cell61; cell63; cell65; cell67; cell69; cell71; cell73; cell75;
    cell77; cell79 ].

End Panda.

(* ================================================================= *)
(** ** Syntactic analyses *)

Module Analysis.

(** All sub-expressions of an expression, itself first, in textual order. *)
Fixpoint subexprs (e : expr) : list expr :=
  e :: match e with
       | ECall _ args => flat_map subexprs args
       | EKw _ a => subexprs a
       | EBin _ a b => subexprs a ++ subexprs b
       | EUn _ a => subexprs a
       | EIndex a idx => subexprs a ++ flat_map subexprs idx
       | ESlice lo hi => subexprs lo ++ subexprs hi
       | EField _ a _ => subexprs a
       | ELambda _ body => subexprs body
       | EList items => flat_map subexprs items
       | ETuple items => flat_map subexprs items
       | _ => []
       end.

(** All statements of a statement, itself first, nested blocks included. *)
Fixpoint substmts (s : stmt) : list stmt :=
  s :: match s with
       | SIf _ th el => flat_map substmts th ++ flat_map substmts el
       | SFor _ _ body => flat_map substmts body
       | STry body handler => flat_map substmts body ++ flat_map substmts handler
       | _ => []
       end.

(** The expressions a single statement carries at its own level. *)
Definition own_exprs (s : stmt) : list expr :=
  match s with
  | SExpr e => [e]
  | SAssign lhs rhs => [lhs; rhs]
  | SImport _ _ _ => []
  | SIf c _ _ => [c]
  | SFor _ seq _ => [seq]
  | STry _ _ => []
  end.

Definition cell_stmts (c : cell) : list stmt := flat_map substmts (source c).

Definition cell_exprs (c : cell) : list expr :=
  flat_map subexprs (flat_map own_exprs (cell_stmts c)).

Definition callee (e : expr) : list string :=
  match e with ECall f _ => [f] | _ => [] end.

(** Routines called by a cell, one entry per call site, in textual order. *)
Definition calls (c : cell) : list string := flat_map callee (cell_exprs c).

Definition notebook_calls (nb : notebook) : list string := flat_map calls nb.

Definition mem (x : string) (l : list string) : bool :=
  existsb (String.eqb x) l.

(** Names of a list without repetition, first occurrences kept. *)
Fixpoint distinct_from (seen l : list string) : list string :=
  match l with
  | [] => []
  | x :: rest =>
      if mem x seen then distinct_from seen rest
      else x :: distinct_from (x :: seen) rest
  end.

Definition distinct (l : list string) : list string := distinct_from [] l.

(** Distinct routines called by a notebook, in order of first use. *)
Definition routines (nb : notebook) : list string :=
  distinct (notebook_calls nb).

(** *** Control flow *)

Definition is_branch (s : stmt) : bool :=
  match s with SIf _ _ _ => true | _ => false end.

Definition is_loop (s : stmt) : bool :=
  match s with SFor _ _ _ => true | _ => false end.

Definition has_branch (c : cell) : bool := existsb is_branch (cell_stmts c).
Definition has_loop (c : cell) : bool := existsb is_loop (cell_stmts c).
Definition has_control_flow (c : cell) : bool := has_branch c || has_loop c.

(** A notebook is straight-line when no code cell branches or loops. *)
Definition straight_line (nb : notebook) : Prop :=
  forall c, List.In c nb -> has_control_flow c = false.

(** Cell numbers of the cells selected by a test. *)
Definition cells_where (p : cell -> bool) (nb : notebook) : list nat :=
  map cell_no (filter p nb).

(** *** Logic written in the notebook itself *)

(** Operators applied by the notebook: every binary and unary operator,
    the sequence operator [a:b] included. *)
Definition is_operator (e : expr) : bool :=
  match e with
  | EBin _ _ _ => true
  | EUn _ _ => true
  | _ => false
  end.


Definition is_function_def (e : expr) : bool :=
  match e with ELambda _ _ => true | _ => false end.




(** *** Analysis routines *)

(** The routines that carry out the analyses named by the notebooks:
    penalty estimation, partial correlation and p-values (DRAGON), network
    construction, degree computation and enrichment testing (PANDA).  Data
    simulation, scaling, file reading and plotting are not among them. *)
Definition analysis_routines : list string :=
  [ "estimate_penalty_parameters_dragon"; "get_partial_correlation_dragon";
    "estimate_p_values_dragon";
    "panda"; "calcDegree"; "calcDegreeDifference"; "fgsea" ].

Definition is_analysis (f : string) : bool := mem f analysis_routines.

(** Call sites of analysis routines, in order. *)
Definition analysis_calls (nb : notebook) : list string :=
  filter is_analysis (notebook_calls nb).

Definition analysis_used (nb : notebook) : list string :=
  distinct (analysis_calls nb).

Definition at_most_two_analyses (nb : notebook) : Prop :=
  (List.length (analysis_used nb) <= 2)%nat.

(** *** Error handling constructs *)

(** Routines that run their argument and catch the error it raises. *)
Definition catchers : list string := ["try"; "tryCatch"].

(** Routines that turn the failure of their own work into a value: both
    return [FALSE] when the package cannot be loaded. *)
Definition guards : list string := ["requireNamespace"; "require"].

Definition is_catcher (f : string) : bool := mem f catchers.
Definition is_guard (f : string) : bool := mem f guards.

Definition handler_routines : list string :=
  catchers ++ guards ++
  [ "withCallingHandlers"; "withRestarts"; "on.exit";
    "stop"; "warning"; "signalCondition"; "simpleError"; "conditionMessage" ].



(** *** Flat-file inputs *)

Definition file_readers : list string :=
  [ "read.delim"; "read.table"; "read.csv"; "read.csv2"; "readLines"; "readRDS";
    "scan"; "load"; "source"; "file"; "gmtPathways";
    "open"; "np.loadtxt"; "np.genfromtxt"; "np.load"; "np.fromfile" ].

Definition str_literal (e : expr) : list string :=
  match e with EStr s => [s] | _ => [] end.

(** The string literals inside the first argument of a call to a reader. *)
Definition file_read (e : expr) : list (string * string) :=
  match e with
  | ECall f (path :: _) =>
      if mem f file_readers
      then map (pair f) (flat_map str_literal (subexprs path))
      else []
  | _ => []
  end.

(** Attach a cell number to a pair of names. *)
Definition at_cell (no : nat) (p : string * string) : nat * string * string :=
  (no, fst p, snd p).

(** Files read by a notebook: (cell, reader, file name). *)
Definition input_files (nb : notebook) : list (nat * string * string) :=
  flat_map (fun c => map (at_cell (cell_no c)) (flat_map file_read (cell_exprs c))) nb.

(** *** Provenance of the arguments of analysis calls *)

(** An expression reworks data when the notebook itself applies an operator,
    a subsetting or a function of its own inside it. *)
Definition is_rework (e : expr) : bool :=
  is_operator e || is_function_def e
  || match e with EIndex _ _ => true | _ => false end.

Definition reworks (e : expr) : bool := existsb is_rework (subexprs e).

Definition var_name (e : expr) : list string :=
  match e with EVar x => [x] | _ => [] end.

Definition mentions (vs : list string) (e : expr) : bool :=
  existsb (fun x => mem x vs) (flat_map var_name (subexprs e)).

Definition is_analysis_call (e : expr) : bool :=
  match e with ECall f _ => is_analysis f | _ => false end.

Definition add (x : string) (vs : list string) : list string :=
  if mem x vs then vs else x :: vs.

Definition remove (x : string) (vs : list string) : list string :=
  filter (fun y => negb (String.eqb x y)) vs.

(** Variables given a whole new value by an assignment target, and variables
    modified in place by it ([x$f <- v], [x[i] <- v], [f(x) <- v]). *)
Definition whole_targets (lhs : expr) : list string :=
  match lhs with
  | EVar x => [x]
  | ETuple items => flat_map var_name items
  | _ => []
  end.

Definition part_targets (lhs : expr) : list string :=
  match lhs with
  | EField _ (EVar x) _ => [x]
  | EIndex (EVar x) _ => [x]
  | ECall _ (EVar x :: _) => [x]
  | _ => []
  end.

(** Effect of one statement (taken at its own level) on the set of variables
    that hold data preconditioned by the notebook.  The result of an
    analysis routine is a fresh product of the library. *)
Definition flow (pre : list string) (s : stmt) : list string :=
  match s with
  | SAssign lhs rhs =>
      let dirty := negb (is_analysis_call rhs) && (reworks rhs || mentions pre rhs) in
      let pre' := fold_right (if dirty then add else remove) pre (whole_targets lhs) in
      fold_right add pre' (part_targets lhs)
  | _ => pre
  end.

(** Arguments of the analysis calls of a statement that are not handed over
    as produced: preconditioned variables and reworking expressions. *)
Definition arg_name (a : expr) : string :=
  match a with
  | EVar x => x
  | EKw k _ => k
  | _ => "<expression>"
  end.

Definition tainted_args (pre : list string) (e : expr) : list (string * string) :=
  match e with
  | ECall f args =>
      if is_analysis f
      then map (fun a => (f, arg_name a))
               (filter (fun a => reworks a || mentions pre a) args)
      else []
  | _ => []
  end.

Definition stmt_findings (pre : list string) (s : stmt) : list (string * string) :=
  flat_map (tainted_args pre) (flat_map subexprs (own_exprs s)).

Fixpoint scan_stmts (no : nat) (pre : list string) (ss : list stmt)
  : list string * list (nat * string * string) :=
  match ss with
  | [] => (pre, [])
  | s :: rest =>
      let found := map (at_cell no) (stmt_findings pre s) in
      let '(pre', more) := scan_stmts no (flow pre s) rest in
      (pre', found ++ more)
  end.

Fixpoint scan_cells (pre : list string) (nb : notebook)
  : list string * list (nat * string * string) :=
  match nb with
  | [] => (pre, [])
  | c :: rest =>
      let '(pre1, found) := scan_stmts (cell_no c) pre (cell_stmts c) in
      let '(pre2, more) := scan_cells pre1 rest in
      (pre2, found ++ more)
  end.

(** (cell, routine, argument) for every preconditioned table passed to an
    analysis routine. *)
Definition preconditioned_inputs (nb : notebook) : list (nat * string * string) :=
  snd (scan_cells [] nb).

Definition handed_over_as_produced (nb : notebook) : Prop :=
  preconditioned_inputs nb = [].

(** *** Shape of the analysis steps *)

(** Call sites of analysis routines with their cells. *)
Definition analysis_sites (nb : notebook) : list (nat * string) :=
  flat_map (fun c => map (pair (cell_no c)) (filter is_analysis (calls c))) nb.





(** The statements in which an analysis routine is called. *)
Definition analysis_stmts (nb : notebook) : list stmt :=
  filter (fun s => existsb is_analysis_call (flat_map subexprs (own_exprs s)))
         (flat_map cell_stmts nb).





(** *** Counting *)

Definition branch_count (c : cell) : nat := List.length (filter is_branch (cell_stmts c)).
Definition loop_count (c : cell) : nat := List.length (filter is_loop (cell_stmts c)).

(** Calls of file readers, one entry per call site. *)
Definition reader_calls (nb : notebook) : list string :=
  filter (fun f => mem f file_readers) (notebook_calls nb).

(** The right-hand side of the first statement of a list that assigns to
    the variable [x] as a whole. *)
Fixpoint rhs_of (x : string) (ss : list stmt) : option expr :=
  match ss with
  | [] => None
  | SAssign (EVar y) rhs :: rest => if String.eqb x y then Some rhs else rhs_of x rest
  | _ :: rest => rhs_of x rest
  end.

(** Whether a cell assigns to the variable [x], wholly or in part. *)
Definition assigns (x : string) (c : cell) : bool :=
  existsb (fun s => match s with
                    | SAssign lhs _ => mem x (whole_targets lhs ++ part_targets lhs)
                    | _ => false
                    end)
          (cell_stmts c).

End Analysis.
Import Analysis.

(* ================================================================= *)
(** ** Control skeleton: how a failure travels through a script *)

(** Data is abstracted away.  What is kept is the order in which the steps of
    a script are taken (routine calls, operator applications, subsetting,
    member access, variable lookups), the fact that every step may fail with
    an error, and the control constructs.  The outcome of each step, the
    truth of each condition and the length of each loop are supplied from
    outside, as functions of everything that happened before, so that a
    statement about all such suppliers covers all data and all library
    behaviours.  Arguments are evaluated left to right before the step that
    uses them; R evaluates arguments on demand, which moves steps around
    in the trace but does not change how an error leaves a call.  Two
    kinds of routine return even when something failed inside them: a
    catcher ([try], [tryCatch]) catches the error of its argument, and a
    guard ([requireNamespace], [require]) reports the failure of its own
    work as [FALSE]. *)

Module Skeleton.

Section Run.

Variable error : Type.

(** A step that was taken and how it ended. *)
Definition event : Type := expr * option error.
Definition trace : Type := list event.

Record world : Type := World
  { fails : trace -> expr -> option error;
    holds : trace -> expr -> bool;
    count : trace -> expr -> nat }.

Inductive outcome : Type :=
| Finished
| Raised (x : error).

Definition result : Type := trace * outcome.

Variable w : world.

(** Take the step [e] after the trace [t]. *)
Definition step (e : expr) (t : trace) : result :=
  match fails w t e with
  | None => (t ++ [(e, None)], Finished)
  | Some x => (t ++ [(e, Some x)], Raised x)
  end.

(** Continue with [k] unless an error is already travelling. *)
Definition andThen (r : result) (k : trace -> result) : result :=
  match r with
  | (t, Finished) => k t
  | (t, Raised x) => (t, Raised x)
  end.

Definition is_step (e : expr) : bool :=
  match e with
  | ECall _ _ | EBin _ _ _ | EUn _ _ | EIndex _ _ | EField _ _ _ | EVar _ => true
  | _ => false
  end.

Definition finish (e : expr) (t : trace) : result :=
  if is_step e then step e t else (t, Finished).

(** A call that returns whatever happened inside it. *)
Definition absorb (r : result) : result := (fst r, Finished).

(** The call [e] of the routine [f], [args] evaluating its arguments. *)
Definition call (f : string) (e : expr) (args : trace -> result) (t : trace) : result :=
  if is_catcher f then absorb (andThen (args t) (finish e))
  else if is_guard f then andThen (args t) (fun t1 => absorb (finish e t1))
  else andThen (args t) (finish e).

Fixpoint eval (e : expr) (t : trace) {struct e} : result :=
  let evals :=
    fix evals (l : list expr) (t : trace) {struct l} : result :=
      match l with
      | [] => (t, Finished)
      | a :: rest => andThen (eval a t) (evals rest)
      end in
  match e with
  | ECall f args => call f e (evals args) t
  | EKw _ a => eval a t
  | EBin _ a b => andThen (andThen (eval a t) (eval b)) (finish e)
  | EUn _ a => andThen (eval a t) (finish e)
  | EIndex a idx => andThen (andThen (eval a t) (evals idx)) (finish e)
  | ESlice lo hi => andThen (eval lo t) (eval hi)
  | EField _ a _ => andThen (eval a t) (finish e)
  | EList items => evals items t
  | ETuple items => evals items t
  | ELambda _ _ => (t, Finished)        (* a closure is built, its body is not run *)
  | _ => finish e t
  end.

Fixpoint evals (l : list expr) (t : trace) : result :=
  match l with
  | [] => (t, Finished)
  | a :: rest => andThen (eval a t) (evals rest)
  end.

(** Storing into an assignment target.  Binding a name cannot fail;
    unpacking a tuple, and replacing a part of an object, are steps. *)
Definition store (lhs : expr) (t : trace) : result :=
  match lhs with
  | EVar _ => (t, Finished)
  | EIndex _ idx => andThen (evals idx t) (step lhs)
  | _ => step lhs t
  end.

Fixpoint repeat (n : nat) (body : trace -> result) (t : trace) : result :=
  match n with
  | O => (t, Finished)
  | S k => andThen (body t) (repeat k body)
  end.

Definition import_step (module : string) : expr := ECall "import" [EStr module].

Fixpoint exec (s : stmt) (t : trace) {struct s} : result :=
  let block :=
    fix block (l : list stmt) (t : trace) {struct l} : result :=
      match l with
      | [] => (t, Finished)
      | s1 :: rest => andThen (exec s1 t) (block rest)
      end in
  match s with
  | SExpr e => eval e t
  | SAssign lhs rhs => andThen (eval rhs t) (store lhs)
  | SImport module _ _ => step (import_step module) t
  | SIf c th el =>
      andThen (eval c t) (fun t1 => if holds w t1 c then block th t1 else block el t1)
  | SFor _ seq body =>
      andThen (eval seq t) (fun t1 => repeat (count w t1 seq) (block body) t1)
  | STry body handler =>
      match block body t with
      | (t1, Raised _) => block handler t1
      | r => r
      end
  end.

Fixpoint block (l : list stmt) (t : trace) : result :=
  match l with
  | [] => (t, Finished)
  | s1 :: rest => andThen (exec s1 t) (block rest)
  end.

(** Running a notebook from top to bottom: the cells in order, stopping at
    the first cell that ends with an error. *)
Fixpoint run_cells (nb : notebook) (t : trace) : result :=
  match nb with
  | [] => (t, Finished)
  | c :: rest => andThen (block (source c) t) (run_cells rest)
  end.

Definition run (nb : notebook) : result := run_cells nb [].

(** *** What it means for an error to reach the top unchanged *)

Definition succeeded (ev : event) : Prop := snd ev = None.

(** The steps [new] taken by a run and its outcome [o] agree: either no
    step failed and the run finished, or exactly the last step failed and
    its error is the outcome. *)
Definition unhandled (new : trace) (o : outcome) : Prop :=
  match o with
  | Finished => Forall succeeded new
  | Raised x =>
      exists before site, new = before ++ [(site, Some x)] /\ Forall succeeded before
  end.

Definition propagates (from : trace) (r : result) : Prop :=
  exists new, fst r = from ++ new /\ unhandled new (snd r).

(** The same, with one kind of failure let through when [lenient] is set:
    the failure of a guard, which the guard itself turns into a value. *)
Definition is_guard_call (e : expr) : bool :=
  match e with ECall f _ => is_guard f | _ => false end.

Definition quiet (lenient : bool) (ev : event) : Prop :=
  snd ev = None \/ (lenient = true /\ is_guard_call (fst ev) = true).

Definition unhandled_but (lenient : bool) (new : trace) (o : outcome) : Prop :=
  match o with
  | Finished => Forall (quiet lenient) new
  | Raised x =>
      exists before site,
        new = before ++ [(site, Some x)] /\ Forall (quiet lenient) before
  end.

Definition propagates_but (lenient : bool) (from : trace) (r : result) : Prop :=
  exists new, fst r = from ++ new /\ unhandled_but lenient new (snd r).

End Run.

Arguments Finished {error}.
Arguments Raised {error} x.
Arguments World {error}.
Arguments fails {error}.
Arguments holds {error}.
Arguments count {error}.
Arguments step {error}.
Arguments andThen {error}.
Arguments finish {error}.
Arguments eval {error}.
Arguments evals {error}.
Arguments store {error}.
Arguments repeat {error}.
Arguments exec {error}.
Arguments block {error}.
Arguments run_cells {error}.
Arguments run {error}.
Arguments succeeded {error}.
Arguments unhandled {error}.
Arguments propagates {error}.
Arguments absorb {error}.
Arguments call {error}.
Arguments quiet {error}.
Arguments unhandled_but {error}.
Arguments propagates_but {error}.

(** A routine that is not an error-handling routine or, if [lenient] is
    set, that is a guard. *)
Definition tame_callee (lenient : bool) (f : string) : bool :=
  if is_guard f then lenient else negb (mem f handler_routines).

(** An expression that calls tame routines only. *)
Fixpoint tame (lenient : bool) (e : expr) : bool :=
  match e with
  | ECall f args => tame_callee lenient f && forallb (tame lenient) args
  | EKw _ a => tame lenient a
  | EBin _ a b => tame lenient a && tame lenient b
  | EUn _ a => tame lenient a
  | EIndex a idx => tame lenient a && forallb (tame lenient) idx
  | ESlice lo hi => tame lenient lo && tame lenient hi
  | EField _ a _ => tame lenient a
  | EList items => forallb (tame lenient) items
  | ETuple items => forallb (tame lenient) items
  | _ => true
  end.

(** A statement without [try] whose expressions are tame. *)
Fixpoint tame_stmt (lenient : bool) (s : stmt) : bool :=
  match s with
  | SExpr e => tame lenient e
  | SAssign lhs rhs => tame lenient lhs && tame lenient rhs
  | SImport _ _ _ => true
  | SIf c th el =>
      tame lenient c && forallb (tame_stmt lenient) th
      && forallb (tame_stmt lenient) el
  | SFor _ seq body => tame lenient seq && forallb (tame_stmt lenient) body
  | STry _ _ => false
  end.

Definition tame_notebook (lenient : bool) (nb : notebook) : bool :=
  forallb (fun c => forallb (tame_stmt lenient) (source c)) nb.



(** *** The steps of a straight-line script *)

(** The steps that evaluating an expression takes, in the order in which
    [eval] takes them. *)
Fixpoint sites (e : expr) : list expr :=
  match e with
  | ECall _ args => flat_map sites args ++ [e]
  | EKw _ a => sites a
  | EBin _ a b => (sites a ++ sites b) ++ [e]
  | EUn _ a => sites a ++ [e]
  | EIndex a idx => (sites a ++ flat_map sites idx) ++ [e]
  | ESlice lo hi => sites lo ++ sites hi
  | EField _ a _ => sites a ++ [e]
  | EList items => flat_map sites items
  | ETuple items => flat_map sites items
  | ELambda _ _ => []
  | _ => if is_step e then [e] else []
  end.

Definition store_sites (lhs : expr) : list expr :=
  match lhs with
  | EVar _ => []
  | EIndex _ idx => flat_map sites idx ++ [lhs]
  | _ => [lhs]
  end.

(** A statement without control construct. *)
Definition plain (s : stmt) : bool :=
  match s with
  | SExpr _ | SAssign _ _ | SImport _ _ _ => true
  | _ => false
  end.

Definition stmt_script (s : stmt) : list expr :=
  match s with
  | SExpr e => sites e
  | SAssign lhs rhs => sites rhs ++ store_sites lhs
  | SImport module _ _ => [import_step module]
  | _ => []
  end.

(** The steps of a notebook made of plain statements, in order. *)
Definition script (nb : notebook) : list expr :=
  flat_map (fun c => flat_map stmt_script (source c)) nb.

(** A notebook of plain statements without catcher: a guard takes its
    step like any other call. *)
Definition linear (nb : notebook) : bool :=
  forallb (fun c => forallb (fun s => plain s && tame_stmt true s) (source c)) nb.

Section Following.

Variable error : Type.

(** A run follows a list of steps when it takes them in order, all of them
    if it finishes, and a leading part of them, ending with the step that
    failed, if it raises. *)
Definition follows (steps : list expr) (from : trace error) (r : result error) : Prop :=
  exists new,
    fst r = from ++ new
    /\ match snd r with
       | Finished => map fst new = steps
       | Raised _ => exists rest, steps = map fst new ++ rest
       end.

End Following.

Arguments follows {error}.

(** Two worlds without failures that differ in the truth of
    [runserver == 1] and [runserver == 0]. *)
Definition on_server : world string :=
  World (fun _ _ => None)
        (fun _ e => match e with
                    | EBin Equal (EVar "runserver") (ENum 1) => true
                    | _ => false
                    end)
        (fun _ _ => 1%nat).

Definition on_laptop : world string :=
  World (fun _ _ => None)
        (fun _ e => match e with
                    | EBin Equal (EVar "runserver") (ENum 0) => true
                    | _ => false
                    end)
        (fun _ _ => 1%nat).




(** A world in which no table can be read. *)
Definition fragile : world string :=
  World (fun _ e => match e with
                    | ECall "read.delim" _ => Some "cannot open file"
                    | _ => None
                    end)
        (fun _ _ => false)
        (fun _ _ => O).

End Skeleton.

(* ================================================================= *)
(** ** The DRAGON notebook as a straight-line program *)

(** The routines of [netZooPy.dragon] are not part of the repository; the
    notebook is written against them.  They are gathered in an interface,
    and the notebook is a function of any implementation of it.  The cells
    that only draw (11, 19, 21) and the bare displays ([X1.shape],
    [print(lambdas)], [r.shape]) bind none of the variables below and are
    left out. *)

Module DragonRun.

Record library : Type := Library
  { array : Type;                      (* numpy arrays *)
    penalties : Type;                  (* what [lambdas] holds *)
    shape : array -> Z * Z;            (* [X.shape] of a two-dimensional array *)
    simulate_dragon_data :
      forall (eta11 eta12 eta22 : Q) (p1 p2 : Z) (epsilon : list Q) (n seed : Z),
        array * array * array * array;
    Scale : array -> array;
    estimate_penalty_parameters_dragon : array -> array -> penalties * array;
    get_partial_correlation_dragon : array -> array -> penalties -> array;
    estimate_p_values_dragon :
      forall (r : array) (n p1 p2 : Z) (lambdas : penalties), array * array }.

(** The variables of the notebook after its last cell. *)
Record variables (L : library) : Type := Variables
  { n : Z; p1 : Z; p2 : Z;
    X1 : array L; X2 : array L; Theta : array L;
    lambdas : penalties L; lambdas_landscape : array L;
    r : array L;
    adj_p_vals : array L; p_vals : array L }.

Arguments n {L}. Arguments p1 {L}. Arguments p2 {L}.
Arguments X1 {L}. Arguments X2 {L}. Arguments Theta {L}.
Arguments lambdas {L}. Arguments lambdas_landscape {L}.
Arguments r {L}. Arguments adj_p_vals {L}. Arguments p_vals {L}.

Definition dragon_tutorial (L : library) : variables L :=
  (* cell 3 *)
  let n := 1000 in
  let p1 := 500 in
  let p2 := 100 in
  (* cell 5 *)
  let '(X1, X2, Theta, _) :=
    simulate_dragon_data L 0.005%Q 0.005%Q 0.05%Q 100 500 [0.1%Q; 0.1%Q] n 123 in
  (* cell 7 *)
  let X1 := Scale L X1 in
  let X2 := Scale L X2 in
  (* cell 9 *)
  let '(lambdas, lambdas_landscape) := estimate_penalty_parameters_dragon L X1 X2 in
  (* cell 13 *)
  let r := get_partial_correlation_dragon L X1 X2 lambdas in
  (* cell 16 *)
  let '(adj_p_vals, p_vals) := estimate_p_values_dragon L r n p1 p2 lambdas in
  Variables L n p1 p2 X1 X2 Theta lambdas lambdas_landscape r adj_p_vals p_vals.

Definition columns (L : library) (X : array L) : Z := snd (shape L X).

(** What the notebook's text says of the library: [simulate_dragon_data]
    returns [X1] and [X2] "with n measurements in the rows and with p1 and p2
    variables in the columns", and scaling keeps the dimensions. *)
Definition documented_shapes (L : library) : Prop :=
  (forall eta11 eta12 eta22 p1 p2 epsilon n seed,
     let '(X1, X2, _, _) :=
       simulate_dragon_data L eta11 eta12 eta22 p1 p2 epsilon n seed in
     shape L X1 = (n, p1) /\ shape L X2 = (n, p2))
  /\ (forall X, shape L (Scale L X) = shape L X).

(** A small implementation in which an array is just its shape. *)
Definition toy : library :=
  {| array := Z * Z;
     penalties := unit;
     shape := fun X => X;
     simulate_dragon_data := fun _ _ _ p1 p2 _ n _ =>
       ((n, p1), (n, p2), (p1 + p2, p1 + p2), (p1 + p2, p1 + p2));
     Scale := fun X => X;
     estimate_penalty_parameters_dragon := fun _ _ => (tt, (101, 101));
     get_partial_correlation_dragon := fun A B _ =>
       (snd A + snd B, snd A + snd B);
     estimate_p_values_dragon := fun _ _ p1 p2 _ =>
       ((p1 + p2, p1 + p2), (p1 + p2, p1 + p2)) |}.

End DragonRun.

(* ================================================================= *)
(** ** The index arithmetic of the PANDA edge tables (cells 39 and 47) *)

Module Edges.

(** R integers: [None] is [NA]. *)
Definition rint : Type := option Z.

(** [a %/% b]: floor division, [NA] when an operand is [NA] or [b] is 0. *)
Definition intdiv (a b : rint) : rint :=
  match a, b with
  | Some x, Some y => if y =? 0 then None else Some (x / y)
  | _, _ => None
  end.

(** [a %% b]: remainder with the sign of [b], [NA] as for [%/%]. *)
Definition modulo (a b : rint) : rint :=
  match a, b with
  | Some x, Some y => if y =? 0 then None else Some (x mod y)
  | _, _ => None
  end.

Definition plus (a b : rint) : rint :=
  match a, b with
  | Some x, Some y => Some (x + y)
  | _, _ => None
  end.

(** [x[i]] for one subscript [i] that is positive or [NA]: the element at
    the 1-based position [i], [NA] beyond the end. *)
Definition subscript {A : Type} (x : list A) (i : rint) : option A :=
  match i with
  | Some k => if 1 <=? k then nth_error x (Z.to_nat (k - 1)) else None
  | None => None
  end.

(** [1:n] for [n >= 1]. *)
Definition one_to (n : nat) : list rint :=
  map (fun k => Some (Z.of_nat k)) (seq 1 n).

(** [aa[1:nDiffs]] *)
Definition leading (aa : list Z) (nDiffs : nat) : list rint :=
  map (fun i => subscript aa i) (one_to nDiffs).

(** One entry of [geneIdsTop = (aa[1:nDiffs] %/% dim(diffNet)[1]) + 1]. *)
Definition gene_id (dim1 : Z) (L : rint) : rint :=
  plus (intdiv L (Some dim1)) (Some 1).

(** One entry of [tfIdsTop = aa[1:nDiffs] %% dim(diffNet)[1]] after
    [tfIdsTop[tfIdsTop == 0] = nTFs]: entries equal to 0 are replaced,
    [NA] entries are left alone. *)
Definition tf_id (dim1 nTFs : Z) (L : rint) : rint :=
  match modulo L (Some dim1) with
  | Some t => if t =? 0 then Some nTFs else Some t
  | None => None
  end.

Definition geneIdsTop (dim1 : Z) (aa : list Z) (nDiffs : nat) : list rint :=
  map (gene_id dim1) (leading aa nDiffs).

Definition tfIdsTop (dim1 nTFs : Z) (aa : list Z) (nDiffs : nat) : list rint :=
  map (tf_id dim1 nTFs) (leading aa nDiffs).

(** [edges$to = colnames(diffNet)[geneIdsTop]] and
    [edges$from = rownames(diffNet)[tfIdsTop]]; [None] is a missing name. *)
Definition edges_to (colnames : list string) (dim1 : Z) (aa : list Z) (nDiffs : nat)
  : list (option string) :=
  map (subscript colnames) (geneIdsTop dim1 aa nDiffs).

Definition edges_from (rownames : list string) (dim1 nTFs : Z) (aa : list Z)
                      (nDiffs : nat) : list (option string) :=
  map (subscript rownames) (tfIdsTop dim1 nTFs aa nDiffs).

(** The value of an arithmetic expression of the notebook at one element,
    given the values of its operands that are not arithmetic themselves. *)
Fixpoint arith (leaf : expr -> rint) (e : expr) : rint :=
  match e with
  | ENum z => Some z
  | EBin Add a b => plus (arith leaf a) (arith leaf b)
  | EBin IntDiv a b => intdiv (arith leaf a) (arith leaf b)
  | EBin Mod a b => modulo (arith leaf a) (arith leaf b)
  | _ => leaf e
  end.

(** Operands of the two index computations: an element [L] of
    [aa[1:nDiffs]] and the row count [dim(diffNet)[1]]. *)
Definition operands (L : rint) (dim1 : Z) (e : expr) : rint :=
  match e with
  | EIndex (EVar "aa") _ => L
  | EIndex (ECall "dim" _) _ => Some dim1
  | _ => None
  end.

(** The position, in column-major order, of the entry in row [tf] and
    column [gene] of a matrix with [nTFs] rows. *)
Definition linear_index (nTFs gene tf : Z) : Z := (gene - 1) * nTFs + tf.

End Edges.

(* ================================================================= *)
(** ** The expression filter of the PANDA notebook (cells 17 and 19) *)

Module Expression.

Section Filter.

(** The numbers held by the expression table, other than [NA] and [NaN],
    with the test [x == 0]. *)
Variable num : Type.
Variable is_zero : num -> bool.

(** An entry of the table; [None] stands for [NA] and [NaN], the values for
    which [is.na] is [TRUE]. *)
Definition entry : Type := option num.

(** R logicals: [None] is [NA]. *)
Definition lgl : Type := option bool.

Definition is_na (x : entry) : lgl :=
  match x with None => Some true | Some _ => Some false end.

(** [x != 0] *)
Definition ne_zero (x : entry) : lgl :=
  match x with None => None | Some v => Some (negb (is_zero v)) end.

(** [!a] *)
Definition lnot (a : lgl) : lgl := option_map negb a.

(** [a & b]: [FALSE] wins over [NA]. *)
Definition land (a b : lgl) : lgl :=
  match a, b with
  | Some false, _ => Some false
  | _, Some false => Some false
  | Some true, Some true => Some true
  | _, _ => None
  end.

(** [x[m]] for a logical [m] as long as [x]: [TRUE] keeps the element,
    [FALSE] drops it, [NA] yields a missing element. *)
Fixpoint pick {A : Type} (x : list A) (m : list lgl) : list (option A) :=
  match x, m with
  | a :: x', Some true :: m' => Some a :: pick x' m'
  | _ :: x', Some false :: m' => pick x' m'
  | _ :: x', None :: m' => None :: pick x' m'
  | _, _ => []
  end.

(** [function(x) length(x[(!is.na(x) & x!=0)])] *)
Definition FUN (x : list entry) : nat :=
  List.length (pick x (map (fun e => land (lnot (is_na e)) (ne_zero e)) x)).

(** [zero_na_counts <- apply(exp, MARGIN = 1, FUN = ...)]: one count per row. *)
Definition zero_na_counts (exp : list (list entry)) : list nat := map FUN exp.

(** [zero_na_counts > 20] *)
Definition gt20 (counts : list nat) : list lgl :=
  map (fun c => Some (20 <? c)%nat) counts.

(** [exp <- exp[zero_na_counts > 20,]]: the rows, [None] for a row of [NA]s
    selected by a missing logical. *)
Definition filtered (exp : list (list entry)) : list (option (list entry)) :=
  pick exp (gt20 (zero_na_counts exp)).

(** The value of a logical expression of the notebook at one entry [x]. *)
Fixpoint logical (x : entry) (e : expr) : lgl :=
  match e with
  | EBin And a b => land (logical x a) (logical x b)
  | EUn Not a => lnot (logical x a)
  | ECall "is.na" [EVar "x"] => is_na x
  | EBin NotEqual (EVar "x") (ENum 0) => ne_zero x
  | _ => None
  end.

(** The number of entries of a row that are neither [NA] nor zero. *)
Definition valid_entries (x : list entry) : nat :=
  List.length
    (filter (fun e => match e with Some v => negb (is_zero v) | None => false end) x).

(** *** Cells 17 and 19 on what [exp] may hold *)

(** What [exp] holds: a data frame with its number of columns and its
    rows, or a bare vector, which is what selecting rows of a data frame
    with one column gives ([drop] is then [TRUE]). *)
Inductive table : Type :=
| DataFrame (ncol : nat) (rows : list (list entry))
| Bare (values : list entry).

(** The rows that [exp[m, ]] selects from a data frame: a missing logical
    selects a row of [NA]s. *)
Definition select_rows (ncol : nat) (rows : list (list entry)) (m : list lgl)
  : list (list entry) :=
  map (fun r => match r with Some row => row | None => List.repeat None ncol end)
      (pick rows m).

(** Cell 17; [apply] stops with an error on a vector, which has no [dim]. *)
Definition cell17 (exp : table) : option (list nat) :=
  match exp with
  | DataFrame _ rows => Some (zero_na_counts rows)
  | Bare _ => None
  end.

(** Cell 19; [exp[m, ]] stops with an error on a vector, which has one
    dimension only. *)
Definition cell19 (exp : table) (counts : list nat) : option table :=
  match exp with
  | DataFrame ncol rows =>
      let kept := select_rows ncol rows (gt20 counts) in
      if (ncol =? 1)%nat then Some (Bare (List.concat kept))
      else Some (DataFrame ncol kept)
  | Bare _ => None
  end.


End Filter.

Arguments DataFrame {num}.
Arguments Bare {num}.

End Expression.

(* ================================================================= *)
(** ** The signature names of the PANDA notebook (cells 69 and 71) *)

(** Character data is a list of characters; the names handled are those of
    gene-set collections, made of letters, digits and underscores, for
    which a character is a byte.  A character vector is a list whose
    entries may be [NA]. *)

Module Names.

Definition str : Type := list ascii.

(** [NA_character_] is [None]. *)
Definition chr : Type := option str.

(** The settings of cell 69 that cell 71 reads. *)
Definition signnamelength : Z := 4.
Definition charcut : Z := 100.

Definition nchar (s : str) : Z := Z.of_nat (List.length s).

(** [substr(s, start, stop)]: the characters at positions [start] to
    [stop], counted from 1; a [start] below 1 is read as 1, and the result
    is empty when [stop] lies before [start]. *)
Definition substr (s : str) (start stop : Z) : str :=
  let first := Z.max start 1 in
  if stop <? first then []
  else firstn (Z.to_nat (stop - first + 1)) (skipn (Z.to_nat (first - 1)) s).

Definition is_upper (c : ascii) : bool :=
  (65 <=? nat_of_ascii c)%nat && (nat_of_ascii c <=? 90)%nat.

Definition lower (c : ascii) : ascii :=
  if is_upper c then ascii_of_nat (nat_of_ascii c + 32) else c.

(** [tolower(s)] *)
Definition tolower (s : str) : str := map lower s.

(** [paste(x, y, sep = sep)] for two strings. *)
Definition paste (x y sep : str) : str := x ++ sep ++ y.

(** [gsub(pattern, replacement, s)] for a pattern that is one literal
    character. *)
Definition gsub (pattern replacement : ascii) (s : str) : str :=
  map (fun c => if Ascii.eqb c pattern then replacement else c) s.

Definition underscore : ascii := "_"%char.
Definition space : ascii := " "%char.
Definition dots : str := list_ascii_of_string "...".

(** The body of the first loop on one name:
    [substr(a[j], signnamelength+2, nchar(a[j]))]. *)
Definition strip (s : str) : str := substr s (signnamelength + 2) (nchar s).

(** The body of the second loop on one name. *)
Definition cut (s : str) : str :=
  if charcut <? nchar s then paste (substr s 1 charcut) dots [space] else s.

(** What cell 71 makes of one pathway name. *)
Definition signature_name (s : str) : str :=
  gsub underscore space (cut (tolower (strip s))).

(** [from:to], counting down when [to] lies below [from]. *)
Definition colon (from to : Z) : list Z :=
  if from <=? to
  then map (fun i => from + Z.of_nat i) (seq 0 (Z.to_nat (to - from + 1)))
  else map (fun i => from - Z.of_nat i) (seq 0 (Z.to_nat (from - to + 1))).

(** [a[j]] for one position [j >= 1]: [NA] beyond the end. *)
Definition elem (a : list chr) (j : Z) : chr :=
  match nth_error a (Z.to_nat (j - 1)) with
  | Some x => x
  | None => None
  end.

(** The vector after storing [v] at the position that follows [k]
    entries: the vector grows, padded with [NA], when it is shorter. *)
Fixpoint store_after (k : nat) (a : list chr) (v : chr) : list chr :=
  match k, a with
  | O, [] => [v]
  | O, _ :: rest => v :: rest
  | S k', [] => None :: store_after k' [] v
  | S k', x :: rest => x :: store_after k' rest v
  end.

(** [a[j] <- v] for one position [j >= 1] and one value. *)
Definition set (a : list chr) (j : Z) (v : chr) : list chr :=
  store_after (Z.to_nat (j - 1)) a v.

(** One round of the first loop.  At [j = 0] both [a[0]] and the value
    computed from it are empty vectors and the assignment changes nothing;
    a missing name stays missing. *)
Definition first_body (a : list chr) (j : Z) : list chr :=
  if j =? 0 then a else set a j (option_map strip (elem a j)).

(** One round of the second loop; [None] is an error.  The condition of
    [if] is empty at [j = 0] and [NA] at a missing name, and [if] rejects
    both. *)
Definition second_body (a : list chr) (j : Z) : option (list chr) :=
  if j =? 0 then None
  else match elem a j with
       | None => None
       | Some s =>
           if charcut <? nchar s
           then Some (set a j (Some (paste (substr s 1 charcut) dots [space])))
           else Some a
       end.

(** A loop whose body may fail. *)
Fixpoint for_each {A : Type} (body : A -> Z -> option A) (js : list Z) (a : A)
  : option A :=
  match js with
  | [] => Some a
  | j :: rest =>
      match body a j with
      | Some a' => for_each body rest a'
      | None => None
      end
  end.

(** Cell 71, from [as.character(dat$pathway)] to the value stored in
    [dat$NAME]; [None] when the cell stops with an error. *)
Definition cell71 (pathway : list chr) : option (list chr) :=
  let a := pathway in
  let a := fold_left first_body (colon 1 (Z.of_nat (List.length a))) a in
  let a := map (option_map tolower) a in
  match for_each second_body (colon 1 (Z.of_nat (List.length a))) a with
  | Some a => Some (map (option_map (gsub underscore space)) a)
  | None => None
  end.

End Names.

(* ================================================================= *)
(** ** Where an entry of a matrix lies *)

(** R stores a matrix column by column.  In a matrix with [nTFs] rows the
    entry at the 1-based position [L] lies in the row and the column
    below; they are what [tfIdsTop] and [geneIdsTop] are meant to be. *)

Module Layout.

Definition row_of (nTFs L : Z) : Z := (L - 1) mod nTFs + 1.

Definition col_of (nTFs L : Z) : Z := (L - 1) / nTFs + 1.

End Layout.

(* ================================================================= *)
(** ** The node table of the PANDA notebook (cells 41 and 49) *)

Module Nodes.

(** A name in a column of [edges]; [None] is [NA]. *)
Definition name : Type := option string.

Definition name_eqb (a b : name) : bool :=
  match a, b with
  | Some x, Some y => String.eqb x y
  | None, None => true
  | _, _ => false
  end.

(** [x %in% l]; [NA] matches [NA]. *)
Definition is_in (x : name) (l : list name) : bool := existsb (name_eqb x) l.

(** [unique(l)]: the first occurrence of every value, in order. *)
Fixpoint unique (l : list name) : list name :=
  match l with
  | [] => []
  | x :: rest => x :: filter (fun y => negb (name_eqb x y)) (unique rest)
  end.

(** [as.vector(as.matrix(edges[,c(1,2)]))]: the column [from] followed by
    the column [to]. *)
Definition endpoints (from to : list name) : list name := from ++ to.

Record node : Type := Node { id : name; label : name; group : string }.

(** [ifelse(nodes$id %in% edges$from, "TF", "gene")] for one node. *)
Definition group_of (from : list name) (x : name) : string :=
  if is_in x from then "TF" else "gene".

(** The data frame [nodes], row by row. *)
Definition nodes (from to : list name) : list node :=
  map (fun x => Node x x (group_of from x)) (unique (endpoints from to)).

End Nodes.

(* ================================================================= *)
(** ** Colours: the differential edges (cell 47) and the bubble plot
       (cells 75 and 77) *)

(** Finite numbers are rationals; [None] stands for [NA] and [NaN].  The
    operations used on them, comparison with zero, [abs] and the change of
    sign, are exact on floating-point numbers. *)

Module Colours.

Definition num : Type := option Q.

Definition lgl : Type := option bool.

(** [v > 0] and [v < 0] *)
Definition gt0 (v : num) : lgl := option_map (fun q => 0 <? Qnum q) v.
Definition lt0 (v : num) : lgl := option_map (fun q => Qnum q <? 0) v.

(** [ifelse(test, yes, no)] at one position, for scalar [yes] and [no]. *)
Definition ifelse {A : Type} (test : lgl) (yes no : A) : option A :=
  option_map (fun b : bool => if b then yes else no) test.

(** [abs(v)] *)
Definition abs (v : num) : num := option_map Qabs v.

(** [edges$color = ifelse(edges$value > 0, "green", "red")] followed by
    [edges$value = abs(edges$value)]. *)
Definition edge_color (v : num) : option string := ifelse (gt0 v) "green" "red".

Definition colour_edges (value : list num) : list (option string) * list num :=
  (map edge_color value, map abs value).

(** Reading a signed weight back from a colour and a magnitude. *)
Definition signed (color : option string) (magnitude : num) : num :=
  match color, magnitude with
  | Some c, Some q => if String.eqb c "green" then Some q else Some (Qopp q)
  | _, _ => None
  end.

(** [which(m)]: the positions, counted from 1, at which [m] is [TRUE]. *)
Fixpoint which_from (k : nat) (m : list lgl) : list nat :=
  match m with
  | [] => []
  | Some true :: rest => k :: which_from (S k) rest
  | _ :: rest => which_from (S k) rest
  end.

Definition which (m : list lgl) : list nat := which_from 1 m.

(** [x[k+1] <- v]: the vector grows, padded with [NA], when it is shorter. *)
Fixpoint store {A : Type} (k : nat) (x : list (option A)) (v : option A)
  : list (option A) :=
  match k, x with
  | O, [] => [v]
  | O, _ :: rest => v :: rest
  | S k', [] => None :: store k' [] v
  | S k', y :: rest => y :: store k' rest v
  end.

(** [x[idx] <- v] for positions counted from 1 and one value [v]. *)
Definition assign {A : Type} (x : list (option A)) (idx : list nat) (v : option A)
  : list (option A) :=
  fold_left (fun x i => store (i - 1) x v) idx x.

(** The settings of cell 69 that cell 77 reads. *)
Definition dencol_neg : string := "blue".
Definition dencol_pos : string := "red".

(** Cells 75 and 77, from the column [NES] of [dat2] to [signcol]. *)
Definition signcol (NES : list num) : list (option string) :=
  let sign_neg := which (map lt0 NES) in
  let sign_pos := which (map gt0 NES) in
  let signcol := List.repeat None (List.length NES) in
  let signcol := assign signcol sign_neg (Some dencol_neg) in
  let signcol := assign signcol sign_pos (Some dencol_pos) in
  rev signcol.

(** The colour of the label of one signature. *)
Definition label_colour (v : num) : option string :=
  match v with
  | Some q => if Qnum q <? 0 then Some "blue"
              else if 0 <? Qnum q then Some "red" else None
  | None => None
  end.

(** [p < cut] *)
Definition below (cut : Q) (p : num) : lgl :=
  option_map (fun q => negb (Qle_bool cut q)) p.

(** [fdrcut] of cell 69. *)
Definition fdrcut : Q := 0.05%Q.

(** [dat2 <- dat[dat[,"padj"]<fdrcut,]] of cell 73, the rows of [dat]
    being paired with their adjusted p-values; [None] is a row of [NA]s. *)
Definition significant {A : Type} (dat : list A) (padj : list num) : list (option A) :=
  Expression.pick dat (map (below fdrcut) padj).

End Colours.

(* ================================================================= *)
(** ** Choosing the columns of a tissue (cells 23 and 27) *)

Module Samples.

(** [x %in% ids] for sample names. *)
Definition member (x : string) (ids : list string) : bool :=
  existsb (String.eqb x) ids.

(** [colnames(exp) %in% ids] *)
Definition mask (header ids : list string) : list bool :=
  map (fun h => member h ids) header.

(** [x[m]] for a logical [m] without [NA], as long as [x]. *)
Fixpoint keep {A : Type} (m : list bool) (x : list A) : list A :=
  match m, x with
  | true :: m', a :: x' => a :: keep m' x'
  | false :: m', _ :: x' => keep m' x'
  | _, _ => []
  end.

(** What [exp[, m]] gives: a data frame, or, when exactly one column is
    chosen, that column alone as a vector. *)
Inductive selection (A : Type) : Type :=
| Frame (header : list string) (rows : list (list A))
| Column (values : list A).

Arguments Frame {A}.
Arguments Column {A}.

(** [exp[, colnames(exp) %in% ids]] for a table given by its column names,
    taken to be distinct, and its rows. *)
Definition select_columns {A : Type} (header : list string) (rows : list (list A))
                          (ids : list string) : selection A :=
  let m := mask header ids in
  match keep m header with
  | [_] => Column (flat_map (keep m) rows)
  | chosen => Frame chosen (map (keep m) rows)
  end.

(** The rows present in a filtered table. *)
Definition present {A : Type} (l : list (option A)) : list A :=
  flat_map (fun x => match x with Some a => [a] | None => [] end) l.

(** A row with 21 valid entries, all of them in whole-blood columns, under
    a header with one LCL column and 21 whole-blood columns. *)
Definition lopsided_row : list (Expression.entry Z) :=
  None :: List.repeat (Some 7) 21.

Definition lopsided_header : list string :=
  "LCL-1" :: map (fun k => String.append "WB-" (String (ascii_of_nat (65 + k)) EmptyString))
                 (seq 0 21).

End Samples.

(* ================================================================= *)
(** * Properties *)

(* ----------------------------------------------------------------- *)
(** ** Errors in the control skeleton *)

Module SkeletonFacts.
Import Skeleton.

(** A guard is not a catcher, and a tame routine is not a catcher. *)
Lemma guard_not_catcher (f : string) : is_guard f = true -> is_catcher f = false.
Proof.
  unfold is_guard, is_catcher, mem, guards, catchers. simpl.
  destruct (String.eqb_spec f "requireNamespace") as [->|_]; [reflexivity|].
  destruct (String.eqb_spec f "require") as [->|_]; [reflexivity | discriminate].
Qed.

Lemma tame_not_catcher (b : bool) (f : string) :
  tame_callee b f = true -> is_catcher f = false.
Proof.
  unfold tame_callee. destruct (is_guard f) eqn:G; intros H.
  - now apply guard_not_catcher.
  - apply negb_true_iff in H. unfold handler_routines, mem in H.
    rewrite existsb_app in H. now apply orb_false_iff in H as [H _].
Qed.

Section Propagation.

Context {error : Type} (w : world error).

Lemma succeeded_quiet (b : bool) (ev : event error) : succeeded ev -> quiet b ev.
Proof. intros H. now left. Qed.

Lemma quiet_strict (ev : event error) : quiet false ev -> succeeded ev.
Proof. intros [H | [H _]]; [exact H | discriminate]. Qed.

















(** Without lenience nothing is let through. *)
Lemma strict_propagates (t : trace error) (r : result error) :
  propagates_but false t r -> propagates t r.
Proof.
  intros (new & Hfst & Hun). exists new. split; [exact Hfst|].
  destruct (snd r) as [|x]; simpl in *.
  - eapply Forall_impl; [|exact Hun]. apply quiet_strict.
  - destruct Hun as (before & site & -> & Hb).
    exists before, site. split; [reflexivity|].
    eapply Forall_impl; [|exact Hb]. apply quiet_strict.
Qed.


End Propagation.

Section Linear.

Context {error : Type} (w : world error).

Lemma follows_finished (t : trace error) : follows [] t (t, Finished).
Proof.
  exists []. split; [simpl; now rewrite app_nil_r | reflexivity].
Qed.

Lemma step_follows (e : expr) (t : trace error) : follows [e] t (step w e t).
Proof.
  unfold step. destruct (fails w t e) as [x|].
  - exists [(e, Some x)]. split; [reflexivity|]. now exists [].
  - exists [(e, None)]. split; reflexivity.
Qed.

Lemma andThen_follows (s1 s2 : list expr) (t : trace error) (r : result error)
      (k : trace error -> result error) :
  follows s1 t r -> (forall t1, follows s2 t1 (k t1)) ->
  follows (s1 ++ s2) t (andThen r k).
Proof.
  intros (new & Hfst & H1) Hk. destruct r as [t1 [|x]]; simpl in *.
  - destruct (Hk t1) as (new2 & Hfst2 & H2).
    exists (new ++ new2). split.
    + rewrite Hfst2, Hfst. now rewrite app_assoc.
    + subst s1. destruct (snd (k t1)).
      * subst s2. apply map_app.
      * destruct H2 as (rest & ->). exists rest.
        rewrite app_assoc. f_equal. symmetry. apply map_app.
  - destruct H1 as (rest & ->). exists new. split; [exact Hfst|].
    exists (rest ++ s2). now rewrite app_assoc.
Qed.

Lemma finish_follows (e : expr) (t : trace error) :
  follows (if is_step e then [e] else []) t (finish w e t).
Proof.
  unfold finish. destruct (is_step e).
  - apply step_follows.
  - apply follows_finished.
Qed.

(** A guard takes its step, whether the step fails or not. *)
Lemma guard_follows (e : expr) (t : trace error) :
  is_step e = true -> follows [e] t (absorb (finish w e t)).
Proof.
  intros Hs. unfold finish, step. rewrite Hs.
  destruct (fails w t e) as [x|].
  - exists [(e, Some x)]. split; reflexivity.
  - exists [(e, None)]. split; reflexivity.
Qed.

Lemma call_follows (f : string) (args : list expr) (steps : list expr)
      (run_args : trace error -> result error) :
  is_catcher f = false ->
  (forall t, follows steps t (run_args t)) ->
  forall t, follows (steps ++ [ECall f args]) t (call w f (ECall f args) run_args t).
Proof.
  intros Hc Hargs t. unfold call. rewrite Hc.
  destruct (is_guard f).
  - apply andThen_follows; [apply Hargs|].
    intros t1. now apply guard_follows.
  - apply andThen_follows; [apply Hargs|].
    intros t1. apply (finish_follows (ECall f args)).
Qed.

Lemma evals_follows (l : list expr) :
  list_all expr (fun e => tame true e = true ->
                          forall t, follows (sites e) t (eval w e t)) l ->
  forallb (tame true) l = true ->
  forall t, follows (flat_map sites l) t (evals w l t).
Proof.
  induction 1 as [|a Ha rest _ IH]; intros Htame t; simpl.
  - apply follows_finished.
  - simpl in Htame. apply andb_true_iff in Htame as [H1 H2].
    apply andThen_follows; auto.
Qed.

Lemma eval_follows (e : expr) :
  tame true e = true -> forall t, follows (sites e) t (eval w e t).
Proof.
  induction e as [ | | | | | | f args IH | k a IH | op a IHa b IHb | op a IH
                 | a IHa idx IHidx | | lo IHlo hi IHhi | k a IH f
                 | params body IH | items IH | items IH ]; intros Htame t;
    try apply (finish_follows _ t).
  - change (follows (flat_map sites args ++ [ECall f args]) t
              (call w f (ECall f args) (evals w args) t)).
    change (tame_callee true f && forallb (tame true) args = true) in Htame.
    apply andb_true_iff in Htame as [H1 H2].
    apply call_follows; [now apply (tame_not_catcher true)|].
    now apply evals_follows.
  - now apply IH.
  - simpl in Htame. apply andb_true_iff in Htame as [H1 H2].
    simpl. repeat apply andThen_follows; auto.
    intros t1. apply (finish_follows (EBin op a b)).
  - simpl in Htame. simpl. apply andThen_follows; auto.
    intros t1. apply (finish_follows (EUn op a)).
  - change (tame true a && forallb (tame true) idx = true) in Htame.
    apply andb_true_iff in Htame as [H1 H2].
    change (follows ((sites a ++ flat_map sites idx) ++ [EIndex a idx]) t
              (andThen (andThen (eval w a t) (evals w idx)) (finish w (EIndex a idx)))).
    repeat apply andThen_follows; auto.
    + now apply evals_follows.
    + intros t1. apply (finish_follows (EIndex a idx)).
  - simpl in Htame. apply andb_true_iff in Htame as [H1 H2].
    simpl. apply andThen_follows; auto.
  - simpl in Htame. simpl. apply andThen_follows; auto.
    intros t1. apply (finish_follows (EField k a f)).
  - apply follows_finished.
  - change (forallb (tame true) items = true) in Htame.
    change (follows (flat_map sites items) t (evals w items t)).
    now apply evals_follows.
  - change (forallb (tame true) items = true) in Htame.
    change (follows (flat_map sites items) t (evals w items t)).
    now apply evals_follows.
Qed.

Lemma evals_all_follow (l : list expr) (t : trace error) :
  forallb (tame true) l = true ->
  follows (flat_map sites l) t (evals w l t).
Proof.
  intros H. apply evals_follows; [|exact H].
  clear H. induction l; constructor; auto using eval_follows.
Qed.

Lemma store_follows (lhs : expr) (t : trace error) :
  tame true lhs = true -> follows (store_sites lhs) t (store w lhs t).
Proof.
  destruct lhs; intros Htame; simpl;
    try apply step_follows; try apply follows_finished.
  change (tame true lhs && forallb (tame true) idx = true) in Htame.
  apply andb_true_iff in Htame as [_ H2].
  apply andThen_follows; [now apply evals_all_follow | intros; apply step_follows].
Qed.

Lemma exec_follows (s : stmt) (t : trace error) :
  plain s && tame_stmt true s = true -> follows (stmt_script s) t (exec w s t).
Proof.
  intros H. apply andb_true_iff in H as [Hp Htame].
  destruct s; try discriminate; simpl.
  - now apply eval_follows.
  - simpl in Htame. apply andb_true_iff in Htame as [H1 H2].
    apply andThen_follows; [now apply eval_follows | intros; now apply store_follows].
  - apply step_follows.
Qed.

Lemma block_follows (l : list stmt) :
  forallb (fun s => plain s && tame_stmt true s) l = true ->
  forall t, follows (flat_map stmt_script l) t (block w l t).
Proof.
  induction l as [|s rest IH]; intros H t; simpl.
  - apply follows_finished.
  - simpl in H. apply andb_true_iff in H as [H1 H2].
    apply andThen_follows; [now apply exec_follows | auto].
Qed.

(** Every run of a linear notebook follows the script of the notebook. *)
Lemma run_cells_follows (nb : notebook) :
  linear nb = true -> forall t, follows (script nb) t (run_cells w nb t).
Proof.
  induction nb as [|c rest IH]; intros H t; simpl.
  - apply follows_finished.
  - simpl in H. apply andb_true_iff in H as [H1 H2].
    apply andThen_follows; [now apply block_follows | auto].
Qed.

End Linear.

End SkeletonFacts.

(* ----------------------------------------------------------------- *)
(** ** The expression filter *)

Module ExpressionFacts.
Import Expression.

Section Filter.

Context {num : Type} (is_zero : num -> bool).

(** The mask [!is.na(x) & x != 0] is never [NA]. *)
Lemma mask_decided (e : entry num) :
  land (lnot (is_na num e)) (ne_zero num is_zero e)
  = Some match e with Some v => negb (is_zero v) | None => false end.
Proof.
  destruct e as [v|]; simpl; [|reflexivity].
  now destruct (is_zero v).
Qed.

(** Picking with a mask without [NA] is filtering. *)
Lemma pick_decided {A : Type} (p : A -> bool) (x : list A) :
  pick x (map (fun a => Some (p a)) x) = map Some (filter p x).
Proof.
  induction x as [|a x IH]; simpl; [reflexivity|].
  destruct (p a); simpl; now rewrite IH.
Qed.

Lemma pick_mask (x : list (entry num)) :
  pick x (map (fun e => land (lnot (is_na num e)) (ne_zero num is_zero e)) x)
  = map Some
      (filter (fun e => match e with Some v => negb (is_zero v) | None => false end) x).
Proof.
  rewrite <- pick_decided. f_equal.
  apply map_ext. intros e. apply mask_decided.
Qed.

Lemma FUN_counts_valid (x : list (entry num)) :
  FUN num is_zero x = valid_entries num is_zero x.
Proof.
  unfold FUN, valid_entries. rewrite pick_mask. apply length_map.
Qed.

Lemma filtered_is_filter (exp : list (list (entry num))) :
  filtered num is_zero exp
  = map Some (filter (fun x => (20 <? valid_entries num is_zero x)%nat) exp).
Proof.
  unfold filtered, gt20, zero_na_counts. rewrite map_map.
  rewrite <- pick_decided. f_equal.
  apply map_ext. intros x. now rewrite FUN_counts_valid.
Qed.



End Filter.

End ExpressionFacts.

(* ----------------------------------------------------------------- *)
(** ** The edge index arithmetic *)

Module EdgesFacts.
Import Edges.

Lemma gene_id_value (nTFs L : Z) :
  0 < nTFs -> gene_id nTFs (Some L) = Some (L / nTFs + 1).
Proof.
  intros H. unfold gene_id, intdiv, plus.
  destruct (Z.eqb_spec nTFs 0); [lia | reflexivity].
Qed.

Lemma tf_id_value (nTFs L : Z) :
  0 < nTFs ->
  tf_id nTFs nTFs (Some L) = Some (if L mod nTFs =? 0 then nTFs else L mod nTFs).
Proof.
  intros H. unfold tf_id, modulo.
  destruct (Z.eqb_spec nTFs 0); [lia|].
  now destruct (L mod nTFs =? 0).
Qed.

(** Away from the multiples of [nTFs] the two indices invert the
    column-major numbering; at a multiple they point one column too far. *)
Lemma linear_index_of_ids (nTFs L : Z) :
  0 < nTFs ->
  linear_index nTFs (L / nTFs + 1) (if L mod nTFs =? 0 then nTFs else L mod nTFs)
  = if L mod nTFs =? 0 then L + nTFs else L.
Proof.
  intros H. unfold linear_index.
  pose proof (Z.div_mod L nTFs ltac:(lia)) as E.
  destruct (Z.eqb_spec (L mod nTFs) 0) as [Hz|Hz]; nia.
Qed.

(** The subscripts that the cells compute are positive, so that [subscript]
    is used where it follows R. *)
Lemma ids_positive (nTFs L : Z) :
  0 < nTFs -> 1 <= L ->
  exists gene tf,
    gene_id nTFs (Some L) = Some gene /\ tf_id nTFs nTFs (Some L) = Some tf
    /\ 1 <= gene /\ 1 <= tf <= nTFs.
Proof.
  intros HT HL.
  exists (L / nTFs + 1), (if L mod nTFs =? 0 then nTFs else L mod nTFs).
  split; [now apply gene_id_value|].
  split; [now apply tf_id_value|].
  pose proof (Z.mod_pos_bound L nTFs HT) as Hm.
  assert (0 <= L / nTFs) by (apply Z.div_pos; lia).
  destruct (Z.eqb_spec (L mod nTFs) 0); lia.
Qed.

Lemma subscript_beyond {A : Type} (x : list A) (k : Z) :
  Z.of_nat (List.length x) < k -> subscript x (Some k) = None.
Proof.
  intros H. unfold subscript.
  destruct (Z.leb_spec 1 k); [|reflexivity].
  apply nth_error_None. lia.
Qed.

End EdgesFacts.

(* ----------------------------------------------------------------- *)
(** ** Inventory of the two notebooks *)

Module Inventory.

Lemma dragon_routines :
  routines Dragon.dragon_tutorial =
  [ "simulate_dragon_data"; "Scale"; "estimate_penalty_parameters_dragon"; "print";
    "plt.figure"; "plt.axes"; "np.arange"; "ax.contour3D"; "np.unravel_index";
    "np.argmin"; "ax.plot"; "int"; "ax.set_xlabel"; "ax.set_ylabel"; "plt.show";
    "get_partial_correlation_dragon"; "estimate_p_values_dragon";
    "plt.imshow"; "plt.colorbar" ].
Proof. vm_compute. reflexivity. Qed.

Lemma panda_routines :
  routines Panda.panda_gtex_tutorial_server =
  [ "install.packages"; "library"; "devtools::install_github"; "requireNamespace";
    "BiocManager::install"; "read.delim"; "paste0"; "log2"; "apply"; "length";
    "is.na"; "colnames"; "panda"; "dim"; "matrix"; "c"; "as.data.frame"; "order";
    "as.matrix"; "abs"; "sort"; "rownames"; "data.frame"; "unique"; "as.vector";
    "ifelse"; "visNetwork"; "visGroups"; "list"; "visLegend"; "calcDegree";
    "calcDegreeDifference"; "head"; "gmtPathways"; "setNames"; "fgsea";
    "as.character"; "substr"; "nchar"; "tolower"; "paste"; "gsub"; "factor"; "rev";
    "which"; "rep"; "ggplot"; "aes"; "geom_point"; "theme_bw"; "xlim";
    "scale_size_area"; "scale_fill_gradient2"; "theme"; "element_text";
    "element_blank" ].
Proof. vm_compute. reflexivity. Qed.

(** The variables that the p-value computation of the DRAGON notebook reads
    are assigned where the straight-line model says: [n], [p1] and [p2] in
    cell 3 only, the data in cells 5 and 7, and the drawing cells assign
    none of them. *)
Lemma dragon_assignments :
  cells_where (assigns "n") Dragon.dragon_tutorial = [3%nat]
  /\ cells_where (assigns "p1") Dragon.dragon_tutorial = [3%nat]
  /\ cells_where (assigns "p2") Dragon.dragon_tutorial = [3%nat]
  /\ cells_where (assigns "X1") Dragon.dragon_tutorial = [5%nat; 7%nat]
  /\ cells_where (assigns "X2") Dragon.dragon_tutorial = [5%nat; 7%nat]
  /\ cells_where (assigns "lambdas") Dragon.dragon_tutorial = [9%nat]
  /\ cells_where (assigns "r") Dragon.dragon_tutorial = [13%nat].
Proof. repeat split; vm_compute; reflexivity. Qed.

End Inventory.

(* ----------------------------------------------------------------- *)
(** ** The models read off the cells *)

Module SourceLinks.

(** The two index computations of the edge cells are the expressions of
    [Panda.edges_common], and both edge cells run them. *)
Lemma gene_id_from_source (L : Edges.rint) (dim1 : Z) :
  option_map (Edges.arith (Edges.operands L dim1)) (rhs_of "geneIdsTop" Panda.edges_common)
  = Some (Edges.gene_id dim1 L).
Proof. reflexivity. Qed.

Lemma tf_modulo_from_source (L : Edges.rint) (dim1 : Z) :
  option_map (Edges.arith (Edges.operands L dim1)) (rhs_of "tfIdsTop" Panda.edges_common)
  = Some (Edges.modulo L (Some dim1)).
Proof. reflexivity. Qed.

Lemma tf_replacement_from_source :
  List.In (SAssign (EIndex (EVar "tfIdsTop") [EBin Equal (EVar "tfIdsTop") (ENum 0)])
                   (EVar "nTFs"))
          Panda.edges_common
  /\ rhs_of "nTFs" (source Panda.cell37)
     = Some (EIndex (ECall "dim" [EVar "diffNet"]) [ENum 1])
  /\ firstn 12 (source Panda.cell39) = Panda.edges_common
  /\ firstn 12 (source Panda.cell47) = Panda.edges_common.
Proof. repeat split. simpl. tauto. Qed.

(** The counting function and the threshold of the expression filter. *)
Lemma mask_from_source (num : Type) (is_zero : num -> bool) (x : Expression.entry num) :
  exists mask,
    rhs_of "zero_na_counts" (source Panda.cell17)
    = Some (ECall "apply"
              [ EVar "exp"; EKw "MARGIN" (ENum 1);
                EKw "FUN" (ELambda ["x"] (ECall "length" [EIndex (EVar "x") [mask]])) ])
    /\ Expression.logical num is_zero x mask
       = Expression.land (Expression.lnot (Expression.is_na num x))
                         (Expression.ne_zero num is_zero x).
Proof. eexists. split; reflexivity. Qed.

Lemma threshold_from_source :
  rhs_of "exp" (source Panda.cell19)
  = Some (EIndex (EVar "exp") [EBin Greater (EVar "zero_na_counts") (ENum 20); EMissing]).
Proof. reflexivity. Qed.

(** The numbers of the DRAGON notebook. *)
Lemma dragon_numbers_from_source :
  rhs_of "n" (source Dragon.cell3) = Some (ENum 1000)
  /\ rhs_of "p1" (source Dragon.cell3) = Some (ENum 500)
  /\ rhs_of "p2" (source Dragon.cell3) = Some (ENum 100)
  /\ source Dragon.cell5
     = [ SAssign (ETuple [EVar "X1"; EVar "X2"; EVar "Theta"; EVar "_"])
           (ECall "simulate_dragon_data"
              [ EKw "eta11" (EDec "0.005"); EKw "eta12" (EDec "0.005");
                EKw "eta22" (EDec "0.05");
                EKw "p1" (ENum 100); EKw "p2" (ENum 500);
                EKw "epsilon" (EList [EDec "0.1"; EDec "0.1"]);
                EKw "n" (EVar "n"); EKw "seed" (ENum 123) ]) ]
  /\ source Dragon.cell16
     = [ SAssign (ETuple [EVar "adj_p_vals"; EVar "p_vals"])
           (ECall "estimate_p_values_dragon"
              [EVar "r"; EVar "n"; EVar "p1"; EVar "p2"; EVar "lambdas"]) ].
Proof. repeat split. Qed.

End SourceLinks.

(* ----------------------------------------------------------------- *)
(** ** Logic written in the notebooks (C1) *)



(* ----------------------------------------------------------------- *)
(** ** Control flow (C2) *)

(** C2, as stated, fails: cell 3 of the PANDA notebook is a conditional,
    and two runs of the notebook in which no step fails, one with
    [runserver == 1] and one with [runserver == 0], take different steps. *)
Lemma C2_panda_branches :
  List.In Panda.cell3 Panda.panda_gtex_tutorial_server
  /\ has_branch Panda.cell3 = true
  /\ map fst (fst (Skeleton.run Skeleton.on_server Panda.panda_gtex_tutorial_server))
     <> map fst (fst (Skeleton.run Skeleton.on_laptop Panda.panda_gtex_tutorial_server))
  /\ ~ (straight_line Dragon.dragon_tutorial
        /\ straight_line Panda.panda_gtex_tutorial_server).
Proof.
  assert (Hin : List.In Panda.cell3 Panda.panda_gtex_tutorial_server).
  { unfold Panda.panda_gtex_tutorial_server. simpl. tauto. }
  split; [exact Hin|].
  split; [vm_compute; reflexivity|].
  split.
  - intros H. apply (f_equal (@List.length expr)) in H.
    vm_compute in H. discriminate.
  - intros [_ H]. specialize (H _ Hin). vm_compute in H. discriminate.
Qed.

(** C2, amended: each notebook is one sequence of code cells; no code cell
    of the DRAGON notebook branches or loops, and every run of the DRAGON
    notebook takes the steps of one fixed list, in order, up to the end or
    up to the step that fails.  In the PANDA notebook exactly three code
    cells contain control flow: cell 3 (an [if] with an [if] inside), cell 5
    ([if] / [else if]) and cell 71 (two [for] loops, the second with an
    [if] inside). *)
Theorem C2_control_flow_located :
  straight_line Dragon.dragon_tutorial
  /\ (forall (error : Type) (w : Skeleton.world error),
        Skeleton.follows (Skeleton.script Dragon.dragon_tutorial) []
                         (Skeleton.run w Dragon.dragon_tutorial))
  /\ cells_where has_control_flow Panda.panda_gtex_tutorial_server = [3; 5; 71]%nat
  /\ map (fun c => (cell_no c, branch_count c, loop_count c))
         (filter has_control_flow Panda.panda_gtex_tutorial_server)
     = [(3, 2, 0); (5, 2, 0); (71, 1, 2)]%nat.
Proof.
  split.
  - intros c Hc. unfold Dragon.dragon_tutorial in Hc. simpl in Hc.
    repeat (destruct Hc as [<- | Hc]; [vm_compute; reflexivity|]).
    contradiction.
  - split.
    + intros error w. apply SkeletonFacts.run_cells_follows.
      vm_compute. reflexivity.
    + split; vm_compute; reflexivity.
Qed.

(* ----------------------------------------------------------------- *)
(** ** Number of analysis routines (C3) *)

(** C3, as stated, fails: the DRAGON notebook already uses three analysis
    routines. *)
Lemma C3_dragon_uses_three :
  List.length (analysis_used Dragon.dragon_tutorial) = 3%nat
  /\ ~ (at_most_two_analyses Dragon.dragon_tutorial
        /\ at_most_two_analyses Panda.panda_gtex_tutorial_server).
Proof.
  split; [vm_compute; reflexivity|].
  intros [H _]. unfold at_most_two_analyses in H.
  vm_compute in H. lia.
Qed.

(** C3, amended: the DRAGON notebook calls three library analysis routines,
    once each (cells 9, 13 and 16); the PANDA notebook calls four, in eight
    calls: [panda] twice, [calcDegree] four times, [calcDegreeDifference]
    and [fgsea] once each. *)
Theorem C3_analysis_routines_counted :
  analysis_used Dragon.dragon_tutorial
  = [ "estimate_penalty_parameters_dragon"; "get_partial_correlation_dragon";
      "estimate_p_values_dragon" ]
  /\ analysis_sites Dragon.dragon_tutorial
     = [ (9%nat, "estimate_penalty_parameters_dragon");
         (13%nat, "get_partial_correlation_dragon");
         (16%nat, "estimate_p_values_dragon") ]
  /\ analysis_used Panda.panda_gtex_tutorial_server
     = [ "panda"; "calcDegree"; "calcDegreeDifference"; "fgsea" ]
  /\ analysis_sites Panda.panda_gtex_tutorial_server
     = [ (29%nat, "panda"); (31%nat, "panda");
         (53%nat, "calcDegree"); (53%nat, "calcDegree");
         (55%nat, "calcDegree"); (55%nat, "calcDegree");
         (57%nat, "calcDegreeDifference"); (63%nat, "fgsea") ].
Proof. repeat split; vm_compute; reflexivity. Qed.

(* ----------------------------------------------------------------- *)
(** ** Dimensions handed to the p-value computation (C4) *)

(** C4: with a library whose simulated data have the documented shapes, the
    DRAGON notebook ends with 100 columns in [X1] and 500 in [X2] (the
    simulation is called with [p1 = 100], [p2 = 500]), while the p-values
    are those computed by [estimate_p_values_dragon] on [p1 = 500] and
    [p2 = 100], the values assigned earlier: the two arguments are swapped
    with respect to the column counts of [X1] and [X2]. *)
Theorem C4_pvalue_dimensions_swapped (L : DragonRun.library)
        (H : DragonRun.documented_shapes L) :
  let v := DragonRun.dragon_tutorial L in
  (let '(A, B, T, _) :=
     DragonRun.simulate_dragon_data L 0.005%Q 0.005%Q 0.05%Q 100 500
                                    [0.1%Q; 0.1%Q] 1000 123 in
   DragonRun.X1 v = DragonRun.Scale L A
   /\ DragonRun.X2 v = DragonRun.Scale L B
   /\ DragonRun.Theta v = T)
  /\ DragonRun.columns L (DragonRun.X1 v) = 100
  /\ DragonRun.columns L (DragonRun.X2 v) = 500
  /\ (DragonRun.adj_p_vals v, DragonRun.p_vals v)
     = DragonRun.estimate_p_values_dragon L (DragonRun.r v) 1000 500 100
                                          (DragonRun.lambdas v)
  /\ DragonRun.p1 v = DragonRun.columns L (DragonRun.X2 v)
  /\ DragonRun.p2 v = DragonRun.columns L (DragonRun.X1 v)
  /\ DragonRun.p1 v <> DragonRun.columns L (DragonRun.X1 v)
  /\ DragonRun.p2 v <> DragonRun.columns L (DragonRun.X2 v).
Proof.
  destruct H as [Hsim Hscale].
  specialize (Hsim 0.005%Q 0.005%Q 0.05%Q 100 500 [0.1%Q; 0.1%Q] 1000 123).
  unfold DragonRun.dragon_tutorial, DragonRun.columns.
  destruct (DragonRun.simulate_dragon_data L 0.005%Q 0.005%Q 0.05%Q 100 500
              [0.1%Q; 0.1%Q] 1000 123) as [[[A B] T] U].
  destruct Hsim as [HA HB].
  destruct (DragonRun.estimate_penalty_parameters_dragon L
              (DragonRun.Scale L A) (DragonRun.Scale L B)) as [lam land].
  destruct (DragonRun.estimate_p_values_dragon L
              (DragonRun.get_partial_correlation_dragon L
                 (DragonRun.Scale L A) (DragonRun.Scale L B) lam)
              1000 500 100 lam) as [adj p] eqn:Hp.
  cbn -[Z.of_nat].
  rewrite !Hscale, HA, HB. cbn.
  repeat split; try reflexivity; try (symmetry; exact Hp); discriminate.
Qed.

Lemma C4_witness :
  DragonRun.documented_shapes DragonRun.toy
  /\ DragonRun.columns DragonRun.toy
       (DragonRun.X1 (DragonRun.dragon_tutorial DragonRun.toy)) = 100
  /\ DragonRun.p1 (DragonRun.dragon_tutorial DragonRun.toy) = 500.
Proof.
  assert (Hdoc : DragonRun.documented_shapes DragonRun.toy).
  { split; [intros; cbn; split; reflexivity | intros; reflexivity]. }
  split; [exact Hdoc|].
  pose proof (C4_pvalue_dimensions_swapped DragonRun.toy Hdoc) as H.
  cbv zeta in H.
  destruct H as (_ & H1 & _ & _ & _ & _ & _ & _).
  split; [exact H1 | reflexivity].
Defined.

(* ----------------------------------------------------------------- *)
(** ** Edge indices at the multiples of the row count (C5) *)

(** C5: let [L] be a 1-based column-major position in a matrix with [nTFs]
    rows and [nGenes] columns.  The two cells compute a gene index and a TF
    index for it.  When [L] is a multiple of [nTFs], the TF index is [nTFs]
    and the gene index is [L / nTFs + 1], so that the pair denotes position
    [L + nTFs]; the pair denotes a position other than [L] exactly for those
    [L].  For the last position, [L = nTFs * nGenes], the gene index is
    [nGenes + 1], and subscripting the [nGenes] column names with it gives a
    missing value. *)
Theorem C5_edge_indices_at_multiples (nTFs nGenes L : Z)
        (HT : 0 < nTFs) (HG : 0 < nGenes) (HL : 1 <= L <= nTFs * nGenes) :
  exists gene tf,
    Edges.gene_id nTFs (Some L) = Some gene
    /\ Edges.tf_id nTFs nTFs (Some L) = Some tf
    /\ ((nTFs | L) ->
        tf = nTFs /\ gene = L / nTFs + 1
        /\ Edges.linear_index nTFs gene tf = L + nTFs)
    /\ (Edges.linear_index nTFs gene tf <> L <-> (nTFs | L))
    /\ (L = nTFs * nGenes ->
        gene = nGenes + 1
        /\ forall colnames : list string,
             Z.of_nat (List.length colnames) = nGenes ->
             Edges.subscript colnames (Edges.gene_id nTFs (Some L)) = None).
Proof.
  exists (L / nTFs + 1), (if L mod nTFs =? 0 then nTFs else L mod nTFs).
  pose proof (EdgesFacts.linear_index_of_ids nTFs L HT) as Hlin.
  assert (Hdiv : (nTFs | L) <-> L mod nTFs = 0).
  { symmetry. apply Z.mod_divide. lia. }
  split; [now apply EdgesFacts.gene_id_value|].
  split; [now apply EdgesFacts.tf_id_value|].
  split; [|split].
  - intros Hd. apply Hdiv in Hd. rewrite Hlin.
    rewrite Hd. cbn. repeat split; reflexivity.
  - rewrite Hlin.
    destruct (Z.eqb_spec (L mod nTFs) 0) as [Hz|Hz]; split; intros Hx.
    + now apply Hdiv.
    + lia.
    + lia.
    + apply Hdiv in Hx. contradiction.
  - intros ->.
    assert (Hq : nTFs * nGenes / nTFs = nGenes).
    { rewrite Z.mul_comm. apply Z.div_mul. lia. }
    split; [now rewrite Hq|].
    intros colnames Hlen.
    rewrite EdgesFacts.gene_id_value by exact HT.
    apply EdgesFacts.subscript_beyond. rewrite Hq. lia.
Qed.

Lemma C5_witness :
  exists gene tf,
    Edges.gene_id 2 (Some 6) = Some gene
    /\ Edges.tf_id 2 2 (Some 6) = Some tf
    /\ ((2 | 6) -> tf = 2 /\ gene = 6 / 2 + 1 /\ Edges.linear_index 2 gene tf = 6 + 2)
    /\ (Edges.linear_index 2 gene tf <> 6 <-> (2 | 6))
    /\ (6 = 2 * 3 ->
        gene = 3 + 1
        /\ forall colnames : list string,
             Z.of_nat (List.length colnames) = 3 ->
             Edges.subscript colnames (Edges.gene_id 2 (Some 6)) = None).
Proof.
  apply (C5_edge_indices_at_multiples 2 3 6); lia.
Defined.

(** The same on whole vectors: a matrix with two TFs and three genes whose
    strongest entry is the last one. *)
Example edges_of_last_entry :
  Edges.edges_to ["g1"; "g2"; "g3"] 2 [6; 1; 4; 2; 3; 5] 3 = [None; Some "g1"; Some "g3"]
  /\ Edges.edges_from ["tf1"; "tf2"] 2 2 [6; 1; 4; 2; 3; 5] 3
     = [Some "tf2"; Some "tf1"; Some "tf2"].
Proof. split; reflexivity. Qed.

(* ----------------------------------------------------------------- *)
(** ** Tables handed to the analysis routines (C6) *)

(** C6, as stated, fails: the expression table given to [panda] in cell 29
    of the PANDA notebook has been reworked by the notebook itself. *)
Lemma C6_panda_preconditions_expression :
  List.In (29%nat, "panda", "lcl_exp")
          (preconditioned_inputs Panda.panda_gtex_tutorial_server)
  /\ ~ (handed_over_as_produced Dragon.dragon_tutorial
        /\ handed_over_as_produced Panda.panda_gtex_tutorial_server).
Proof.
  split.
  - vm_compute. tauto.
  - intros [_ H]. unfold handed_over_as_produced in H.
    vm_compute in H. discriminate.
Qed.

(** C6, amended: in the DRAGON notebook every table passed to an analysis
    routine is the unmodified result of a library call.  In the PANDA
    notebook this holds for every argument of an analysis routine except
    three: the expression tables given to [panda] in cells 29 and 31, which
    the notebook has log-transformed, filtered by rows and cut by columns,
    and the ranked list given to [fgsea] in cell 63, which the notebook
    rebuilds from two columns of the table it read. *)
Theorem C6_preconditioned_inputs_located :
  handed_over_as_produced Dragon.dragon_tutorial
  /\ preconditioned_inputs Panda.panda_gtex_tutorial_server
     = [ (29%nat, "panda", "lcl_exp"); (31%nat, "panda", "wb_exp");
         (63%nat, "fgsea", "degreeDiff_all") ]
  /\ cells_where (assigns "exp") Panda.panda_gtex_tutorial_server = [13; 15; 19]%nat
  /\ cells_where (assigns "lcl_exp") Panda.panda_gtex_tutorial_server = [23]%nat
  /\ cells_where (assigns "wb_exp") Panda.panda_gtex_tutorial_server = [27]%nat
  /\ cells_where (assigns "degreeDiff_all") Panda.panda_gtex_tutorial_server = [61]%nat.
Proof. repeat split; vm_compute; reflexivity. Qed.

(* ----------------------------------------------------------------- *)
(** ** Error handling (C7) *)

(** A handler does change how an error travels: the failing step below is
    followed by a finished run, under Python's [try] statement and under
    R's [try] routine alike. *)
Example try_swallows_error :
  let w := Skeleton.World (fun _ _ => Some "missing file") (fun _ _ => true) (fun _ _ => O) in
  Skeleton.exec w (STry [SExpr (ECall "read.delim" [EStr "motif_subset.txt"])] []) []
  = ([(ECall "read.delim" [EStr "motif_subset.txt"], Some "missing file")],
     Skeleton.Finished).
Proof. reflexivity. Qed.

Example catcher_swallows_error :
  Skeleton.run Skeleton.fragile
    [ Cell 1 [ SAssign (EVar "motif")
                 (ECall "try" [ECall "read.delim" [EStr "motif_subset.txt"]]) ] ]
  = ([(ECall "read.delim" [EStr "motif_subset.txt"], Some "cannot open file")],
     Skeleton.Finished)
  /\ Skeleton.tame_notebook true
       [ Cell 1 [ SAssign (EVar "motif")
                    (ECall "try" [ECall "read.delim" [EStr "motif_subset.txt"]]) ] ]
     = false.
Proof. split; reflexivity. Qed.




(* ----------------------------------------------------------------- *)
(** ** Flat-file inputs (C8) *)

(** C8: the PANDA notebook reads seven files, the motif, PPI and expression
    tables, two lists of sample ids, a GMT pathway file and a ranked-gene
    [.rnk] file; the DRAGON notebook calls no file reader. *)
Theorem C8_flat_file_inputs :
  input_files Panda.panda_gtex_tutorial_server
  = [ (9%nat, "read.delim", "motif_subset.txt");
      (11%nat, "read.delim", "ppi_subset.txt");
      (13%nat, "read.delim", "expression_tpm_lcl_blood_subset.txt");
      (21%nat, "read.delim", "LCL_samples.txt");
      (25%nat, "read.delim", "WholeBlood_samples.txt");
      (59%nat, "gmtPathways", "c2.cp.kegg.v7.0.symbols.gmt");
      (61%nat, "read.delim", "lclWB_indegreeDifference.rnk") ]
  /\ List.length (input_files Panda.panda_gtex_tutorial_server) = 7%nat
  /\ List.length (reader_calls Panda.panda_gtex_tutorial_server) = 7%nat
  /\ input_files Dragon.dragon_tutorial = []
  /\ reader_calls Dragon.dragon_tutorial = [].
Proof. repeat split; vm_compute; reflexivity. Qed.

(* ----------------------------------------------------------------- *)
(** ** The expression filter (C9) *)

(** C9: the rows of the expression table that survive cell 19 are, in
    order, exactly the rows whose number of entries that are neither [NA]
    nor zero is strictly greater than 20, and no row of [NA]s is produced;
    so a row of the table is kept if and only if that number exceeds 20,
    and a row with exactly 20 such entries is removed. *)
Theorem C9_rows_kept_above_twenty (num : Type) (is_zero : num -> bool)
        (exp : list (list (Expression.entry num))) :
  Expression.filtered num is_zero exp
  = map Some (filter (fun x => (20 <? Expression.valid_entries num is_zero x)%nat) exp)
  /\ (forall x, List.In x exp ->
        (List.In (Some x) (Expression.filtered num is_zero exp)
         <-> (20 < Expression.valid_entries num is_zero x)%nat))
  /\ (forall x, Expression.valid_entries num is_zero x = 20%nat ->
        ~ List.In (Some x) (Expression.filtered num is_zero exp)).
Proof.
  pose proof (ExpressionFacts.filtered_is_filter is_zero exp) as E.
  split; [exact E|].
  assert (Hin : forall x,
             List.In (Some x) (Expression.filtered num is_zero exp)
             <-> List.In x exp /\ (20 < Expression.valid_entries num is_zero x)%nat).
  { intros x. rewrite E. split.
    - intros H. apply in_map_iff in H as (y & Hy & H). inversion Hy; subst.
      apply filter_In in H as [H1 H2]. apply Nat.ltb_lt in H2. now split.
    - intros [H1 H2]. apply in_map, filter_In. split; [exact H1|].
      now apply Nat.ltb_lt. }
  split.
  - intros x Hx. split.
    + intros H. now apply Hin in H.
    + intros H. apply Hin. now split.
  - intros x H20 H. apply Hin in H as [_ H]. lia.
Qed.

(** The filter on a small table of integers: the row with 21 valid entries
    stays, the rows with 20 valid entries (one of them padded with a zero and
    a missing value) go. *)
Example filter_at_the_threshold :
  let row21 := List.repeat (Some 3) 21 in
  let row20 := List.repeat (Some 3) 20 in
  let padded := None :: Some 0 :: List.repeat (Some 3) 20 in
  Expression.zero_na_counts Z (Z.eqb 0) [row20; row21; padded] = [20; 21; 20]%nat
  /\ Expression.filtered Z (Z.eqb 0) [row20; row21; padded] = [Some row21].
Proof. split; reflexivity. Qed.

(* ----------------------------------------------------------------- *)
(** ** The signature names *)

Module NamesFacts.
Import Names.

Definition is_na (x : chr) : bool :=
  match x with None => true | Some _ => false end.

Lemma colon_from_one (n : nat) :
  (1 <= n)%nat -> colon 1 (Z.of_nat n) = map Z.of_nat (seq 1 n).
Proof.
  intros H. unfold colon.
  destruct (Z.leb_spec 1 (Z.of_nat n)); [|lia].
  replace (Z.to_nat (Z.of_nat n - 1 + 1)) with n by lia.
  rewrite <- seq_shift, map_map.
  apply map_ext. intros i. lia.
Qed.

Lemma elem_after (pre post : list chr) (x : chr) :
  elem (pre ++ x :: post) (Z.of_nat (S (List.length pre))) = x.
Proof.
  unfold elem.
  replace (Z.to_nat (Z.of_nat (S (List.length pre)) - 1)) with (List.length pre) by lia.
  rewrite nth_error_app2 by lia. now rewrite Nat.sub_diag.
Qed.

Lemma store_after_length (pre post : list chr) (x v : chr) :
  store_after (List.length pre) (pre ++ x :: post) v = pre ++ v :: post.
Proof.
  induction pre as [|y pre IH]; simpl; [reflexivity | now rewrite IH].
Qed.

Lemma set_after (pre post : list chr) (x v : chr) :
  set (pre ++ x :: post) (Z.of_nat (S (List.length pre))) v = pre ++ v :: post.
Proof.
  unfold set.
  replace (Z.to_nat (Z.of_nat (S (List.length pre)) - 1)) with (List.length pre) by lia.
  apply store_after_length.
Qed.

(** The first loop, from any position on, rewrites the remaining names and
    leaves the ones already passed. *)
Lemma first_loop_from (post pre : list chr) :
  fold_left first_body (map Z.of_nat (seq (S (List.length pre)) (List.length post)))
            (pre ++ post)
  = pre ++ map (option_map strip) post.
Proof.
  revert pre. induction post as [|x post IH]; intros pre; [reflexivity|].
  cbn [List.length seq map fold_left].
  unfold first_body at 2.
  destruct (Z.eqb_spec (Z.of_nat (S (List.length pre))) 0) as [E|_]; [lia|].
  rewrite elem_after, set_after.
  specialize (IH (pre ++ [option_map strip x])).
  rewrite length_app, Nat.add_1_r, <- !app_assoc in IH.
  exact IH.
Qed.

Definition cut_entry (x : chr) : chr := option_map cut x.

(** The second loop, from any position on, fails at the first missing name
    and otherwise cuts the remaining names. *)
Lemma second_loop_from (post pre : list chr) :
  for_each second_body (map Z.of_nat (seq (S (List.length pre)) (List.length post)))
           (pre ++ post)
  = if existsb is_na post then None else Some (pre ++ map cut_entry post).
Proof.
  revert pre. induction post as [|x post IH]; intros pre.
  - reflexivity.
  - cbn [List.length seq map for_each existsb].
    unfold second_body at 1.
    destruct (Z.eqb_spec (Z.of_nat (S (List.length pre))) 0) as [E|_]; [lia|].
    rewrite elem_after.
    destruct x as [s|]; [|reflexivity].
    cbn [is_na orb].
    specialize (IH (pre ++ [cut_entry (Some s)])).
    rewrite length_app, Nat.add_1_r, <- !app_assoc in IH.
    cbn [cut_entry option_map app] in IH. unfold cut in IH.
    cbn [cut_entry option_map]. unfold cut.
    destruct (charcut <? nchar s).
    + rewrite set_after. exact IH.
    + exact IH.
Qed.

Lemma na_kept (f : str -> str) (a : list chr) :
  existsb is_na (map (option_map f) a) = existsb is_na a.
Proof.
  induction a as [|[s|] a IH]; simpl; auto.
Qed.

(** Cell 71 on a vector that is not empty. *)
Lemma cell71_nonempty (a : list chr) :
  a <> [] ->
  cell71 a = if existsb is_na a then None
             else Some (map (option_map signature_name) a).
Proof.
  intros Ha. unfold cell71. cbv zeta.
  assert (Hn : (1 <= List.length a)%nat).
  { destruct a; [contradiction | simpl; lia]. }
  rewrite (colon_from_one (List.length a)) by exact Hn.
  pose proof (first_loop_from a []) as H1. cbn [app List.length] in H1.
  rewrite H1.
  set (b := map (option_map tolower) (map (option_map strip) a)).
  assert (Hb : List.length b = List.length a).
  { unfold b. now rewrite !length_map. }
  assert (E : for_each second_body (colon 1 (Z.of_nat (List.length b))) b
              = if existsb is_na b then None else Some (map cut_entry b)).
  { rewrite colon_from_one by (rewrite Hb; exact Hn).
    exact (second_loop_from b []). }
  change (match for_each second_body (colon 1 (Z.of_nat (List.length b))) b with
          | Some a0 => Some (map (option_map (gsub underscore space)) a0)
          | None => None
          end
          = if existsb is_na a then None
            else Some (map (option_map signature_name) a)).
  rewrite E. unfold b. rewrite !na_kept.
  destruct (existsb is_na a); [reflexivity|].
  f_equal. unfold cut_entry. rewrite !map_map.
  apply map_ext. intros [s|]; reflexivity.
Qed.

Lemma cell71_empty : cell71 [] = None.
Proof. reflexivity. Qed.

Lemma strip_is_skip (s : str) : strip s = skipn 5 s.
Proof.
  unfold strip, substr, signnamelength, nchar.
  change (Z.max (4 + 2) 1) with 6. cbv zeta.
  destruct (Z.ltb_spec (Z.of_nat (List.length s)) 6) as [H|H].
  - symmetry. apply skipn_all2. lia.
  - change (Z.to_nat (6 - 1)) with 5%nat.
    apply firstn_all2. rewrite length_skipn. lia.
Qed.

Lemma cut_short (s : str) : (List.length s <= 100)%nat -> cut s = s.
Proof.
  intros H. unfold cut, charcut, nchar.
  destruct (Z.ltb_spec 100 (Z.of_nat (List.length s))); [lia | reflexivity].
Qed.

Lemma cut_long (s : str) :
  (100 < List.length s)%nat -> cut s = firstn 100 s ++ space :: dots.
Proof.
  intros H. unfold cut, charcut, nchar, paste, substr.
  destruct (Z.ltb_spec 100 (Z.of_nat (List.length s))); [|lia].
  reflexivity.
Qed.

Lemma lower_not_upper (c : ascii) : is_upper (lower c) = false.
Proof.
  unfold lower. destruct (is_upper c) eqn:E; [|exact E].
  unfold is_upper in *. apply andb_true_iff in E as [E1 E2].
  apply Nat.leb_le in E1, E2.
  rewrite nat_ascii_embedding by lia.
  apply andb_false_iff. right. apply Nat.leb_gt. lia.
Qed.

Lemma gsub_without (s : str) : ~ List.In underscore (gsub underscore space s).
Proof.
  unfold gsub. intros H. apply in_map_iff in H as (c & Hc & _).
  destruct (Ascii.eqb_spec c underscore); [discriminate Hc | congruence].
Qed.

Lemma gsub_keeps_case (s : str) :
  Forall (fun c => is_upper c = false) s ->
  Forall (fun c => is_upper c = false) (gsub underscore space s).
Proof.
  intros H. unfold gsub. apply Forall_map.
  eapply Forall_impl; [|exact H]. intros c Hc. cbn beta.
  destruct (Ascii.eqb c underscore); [reflexivity | exact Hc].
Qed.

End NamesFacts.

(* ----------------------------------------------------------------- *)
(** ** Cell 71 of the PANDA notebook *)

(** On a vector of pathway names that is not empty and has no missing
    entry, the two loops, the lower-casing and the substitution of cell 71
    amount to cleaning each name on its own: the result has the same length,
    and its entry at each position is [signature_name] of the entry read. *)
Theorem cell71_cleans_each_name (names : list Names.str) (H : names <> []) :
  Names.cell71 (map Some names)
  = Some (map (fun s => Some (Names.signature_name s)) names).
Proof.
  rewrite NamesFacts.cell71_nonempty.
  - assert (E : existsb NamesFacts.is_na (map Some names) = false).
    { clear H. induction names; simpl; auto. }
    rewrite E. now rewrite map_map.
  - destruct names; [contradiction | discriminate].
Qed.

Lemma cell71_cleans_each_name_witness :
  [list_ascii_of_string "KEGG_CELL_CYCLE"; list_ascii_of_string "KEGG_DNA_REPLICATION"] <> []
  /\ Names.cell71 (map Some [ list_ascii_of_string "KEGG_CELL_CYCLE";
                              list_ascii_of_string "KEGG_DNA_REPLICATION" ])
     = Some [ Some (list_ascii_of_string "cell cycle");
              Some (list_ascii_of_string "dna replication") ].
Proof.
  split; [discriminate|].
  exact (cell71_cleans_each_name
           [ list_ascii_of_string "KEGG_CELL_CYCLE";
             list_ascii_of_string "KEGG_DNA_REPLICATION" ]
           ltac:(discriminate)).
Defined.

(** Cell 71 stops with an error exactly when the vector of pathway names is
    empty or has a missing entry.  On an empty vector the loop header
    [1:length(a)] is [1:0], so the loops run, for positions 1 and 0. *)
Theorem cell71_fails_iff_empty_or_missing (a : list Names.chr) :
  Names.cell71 a = None <-> a = [] \/ List.In None a.
Proof.
  destruct a as [|x a].
  - split; [now left | reflexivity].
  - rewrite NamesFacts.cell71_nonempty by discriminate.
    destruct (existsb NamesFacts.is_na (x :: a)) eqn:E.
    + split; [|reflexivity]. intros _. right.
      apply existsb_exists in E as ([s|] & Hin & Hna); [discriminate | exact Hin].
    + split; [discriminate|]. intros [H|H]; [discriminate|].
      assert (existsb NamesFacts.is_na (x :: a) = true).
      { apply existsb_exists. now exists None. }
      congruence.
Qed.

(** The first five characters of a name are dropped without being looked
    at: two names that differ only there get the same cleaned name, and a
    name of five characters is cleaned to the empty string. *)
Theorem signature_name_ignores_prefix (p q t : Names.str)
        (Hp : List.length p = 5%nat) (Hq : List.length q = 5%nat) :
  Names.signature_name (p ++ t) = Names.signature_name (q ++ t)
  /\ Names.signature_name p = [].
Proof.
  unfold Names.signature_name. rewrite !NamesFacts.strip_is_skip.
  assert (Hskip : forall r, List.length r = 5%nat -> skipn 5 (r ++ t) = t).
  { intros r Hr. rewrite skipn_app, Hr, Nat.sub_diag.
    rewrite skipn_all2 by lia. reflexivity. }
  rewrite (Hskip p Hp), (Hskip q Hq). split; [reflexivity|].
  rewrite skipn_all2 by lia. reflexivity.
Qed.

Lemma signature_name_ignores_prefix_witness :
  Names.signature_name (list_ascii_of_string "KEGG_APOPTOSIS")
  = Names.signature_name (list_ascii_of_string "REACTAPOPTOSIS")
  /\ Names.signature_name (list_ascii_of_string "KEGG_") = [].
Proof.
  exact (signature_name_ignores_prefix
           (list_ascii_of_string "KEGG_") (list_ascii_of_string "REACT")
           (list_ascii_of_string "APOPTOSIS") eq_refl eq_refl).
Defined.

(** A cleaned name has no underscore and no upper-case letter, and is at
    most 104 characters long. *)
Theorem signature_name_charset_and_bound (s : Names.str) :
  ~ List.In Names.underscore (Names.signature_name s)
  /\ Forall (fun c => Names.is_upper c = false) (Names.signature_name s)
  /\ (List.length (Names.signature_name s) <= 104)%nat.
Proof.
  unfold Names.signature_name. rewrite NamesFacts.strip_is_skip.
  split; [apply NamesFacts.gsub_without|].
  set (l := Names.tolower (skipn 5 s)).
  assert (Hl : Forall (fun c => Names.is_upper c = false) l).
  { unfold l, Names.tolower. apply Forall_map, Forall_forall.
    intros c _. apply NamesFacts.lower_not_upper. }
  destruct (Nat.le_gt_cases (List.length l) 100) as [Hs|Hs].
  - rewrite NamesFacts.cut_short by exact Hs. split.
    + now apply NamesFacts.gsub_keeps_case.
    + unfold Names.gsub. rewrite length_map. lia.
  - rewrite NamesFacts.cut_long by exact Hs. split.
    + apply NamesFacts.gsub_keeps_case, Forall_app. split.
      * rewrite <- (firstn_skipn 100 l) in Hl.
        apply Forall_app in Hl as [Hf _]. exact Hf.
      * repeat constructor.
    + unfold Names.gsub. rewrite length_map, length_app, length_firstn.
      change (List.length (Names.space :: Names.dots)) with 4%nat. lia.
Qed.

(** A name of at most five characters is cleaned to the empty name.  A
    name of at most 105 characters keeps every character after the fifth,
    lower-cased and with spaces for underscores, so that with five to 105
    characters the cleaned name and the five characters dropped make up
    the length of the name; of a longer name exactly the 100 characters
    after the fifth are kept, and a space and three dots are appended. *)
Theorem signature_name_truncation (s : Names.str) :
  ((List.length s <= 5)%nat -> Names.signature_name s = [])
  /\ ((List.length s <= 105)%nat ->
      Names.signature_name s
      = Names.gsub Names.underscore Names.space (Names.tolower (skipn 5 s)))
  /\ ((5 <= List.length s <= 105)%nat ->
      (List.length (Names.signature_name s) + 5 = List.length s)%nat)
  /\ ((105 < List.length s)%nat ->
      Names.signature_name s
      = Names.gsub Names.underscore Names.space
                   (Names.tolower (firstn 100 (skipn 5 s)))
        ++ Names.space :: Names.dots
      /\ List.length (Names.signature_name s) = 104%nat).
Proof.
  unfold Names.signature_name. rewrite NamesFacts.strip_is_skip.
  assert (Hlen : List.length (Names.tolower (skipn 5 s)) = (List.length s - 5)%nat).
  { unfold Names.tolower. now rewrite length_map, length_skipn. }
  split; [|split; [|split]]; intros H.
  - rewrite skipn_all2 by exact H. reflexivity.
  - rewrite NamesFacts.cut_short by lia. reflexivity.
  - rewrite NamesFacts.cut_short by lia.
    unfold Names.gsub. rewrite length_map, Hlen. lia.
  - rewrite NamesFacts.cut_long by lia.
    unfold Names.gsub, Names.tolower.
    rewrite map_app, firstn_map. split; [reflexivity|].
    rewrite length_app, !length_map, length_firstn, length_skipn.
    change (List.length (Names.space :: Names.dots)) with 4%nat. lia.
Qed.

Lemma signature_name_truncation_witness :
  Names.signature_name (list_ascii_of_string "KEGG") = []
  /\ (List.length (Names.signature_name (list_ascii_of_string "KEGG_CELL_CYCLE")) + 5
      = List.length (list_ascii_of_string "KEGG_CELL_CYCLE"))%nat.
Proof.
  split.
  - apply (proj1 (signature_name_truncation (list_ascii_of_string "KEGG"))).
    simpl. lia.
  - apply (proj1 (proj2 (proj2
             (signature_name_truncation (list_ascii_of_string "KEGG_CELL_CYCLE"))))).
    simpl. lia.
Defined.

(* ----------------------------------------------------------------- *)
(** ** The edge tables (cells 39 and 47) *)

Module LayoutFacts.
Import Layout.

(** [row_of] and [col_of] are the coordinates of the position. *)
Lemma coordinates (nTFs L : Z) :
  0 < nTFs ->
  Edges.linear_index nTFs (col_of nTFs L) (row_of nTFs L) = L
  /\ 1 <= row_of nTFs L <= nTFs.
Proof.
  intros H. unfold Edges.linear_index, col_of, row_of.
  pose proof (Z.div_mod (L - 1) nTFs ltac:(lia)).
  pose proof (Z.mod_pos_bound (L - 1) nTFs H).
  split; nia.
Qed.

Lemma row_of_value (nTFs L : Z) :
  0 < nTFs ->
  row_of nTFs L = if L mod nTFs =? 0 then nTFs else L mod nTFs.
Proof.
  intros H. unfold row_of.
  pose proof (Z.div_mod L nTFs ltac:(lia)) as E.
  pose proof (Z.mod_pos_bound L nTFs H) as B.
  destruct (Z.eqb_spec (L mod nTFs) 0) as [Hz|Hz].
  - rewrite <- (Z.mod_unique (L - 1) nTFs (L / nTFs - 1) (nTFs - 1)); lia.
  - rewrite <- (Z.mod_unique (L - 1) nTFs (L / nTFs) (L mod nTFs - 1)); lia.
Qed.

Lemma col_of_value (nTFs L : Z) :
  0 < nTFs ->
  col_of nTFs L = if L mod nTFs =? 0 then L / nTFs else L / nTFs + 1.
Proof.
  intros H. unfold col_of.
  pose proof (Z.div_mod L nTFs ltac:(lia)) as E.
  pose proof (Z.mod_pos_bound L nTFs H) as B.
  destruct (Z.eqb_spec (L mod nTFs) 0) as [Hz|Hz].
  - rewrite <- (Z.div_unique (L - 1) nTFs (L / nTFs - 1) (nTFs - 1)); lia.
  - rewrite <- (Z.div_unique (L - 1) nTFs (L / nTFs) (L mod nTFs - 1)); lia.
Qed.

Lemma col_of_bounds (nTFs nGenes L : Z) :
  0 < nTFs -> 1 <= L <= nTFs * nGenes -> 1 <= col_of nTFs L <= nGenes.
Proof.
  intros H HL. unfold col_of.
  assert (0 <= (L - 1) / nTFs) by (apply Z.div_pos; lia).
  assert ((L - 1) / nTFs < nGenes).
  { apply Z.div_lt_upper_bound; lia. }
  lia.
Qed.

Lemma subscript_within {A : Type} (x : list A) (k : Z) :
  1 <= k <= Z.of_nat (List.length x) ->
  exists a, Edges.subscript x (Some k) = Some a
            /\ nth_error x (Z.to_nat (k - 1)) = Some a.
Proof.
  intros H. unfold Edges.subscript.
  destruct (Z.leb_spec 1 k); [|lia].
  destruct (nth_error x (Z.to_nat (k - 1))) as [a|] eqn:E.
  - now exists a.
  - apply nth_error_None in E. lia.
Qed.

End LayoutFacts.

(** The TF of an edge is always the right one: for every position [L] of
    a matrix with [nTFs] rows, the index computed for [edges$from] is the
    row in which position [L] lies, and the row name found with it is not
    missing. *)
Theorem edges_from_names_the_row (nTFs nGenes L : Z) (rownames : list string)
        (HT : 0 < nTFs) (HL : 1 <= L <= nTFs * nGenes)
        (HR : Z.of_nat (List.length rownames) = nTFs) :
  Edges.linear_index nTFs (Layout.col_of nTFs L) (Layout.row_of nTFs L) = L
  /\ Edges.tf_id nTFs nTFs (Some L) = Some (Layout.row_of nTFs L)
  /\ exists name,
       Edges.subscript rownames (Edges.tf_id nTFs nTFs (Some L)) = Some name
       /\ nth_error rownames (Z.to_nat (Layout.row_of nTFs L - 1)) = Some name.
Proof.
  destruct (LayoutFacts.coordinates nTFs L HT) as [Hc Hr].
  split; [exact Hc|].
  assert (E : Edges.tf_id nTFs nTFs (Some L) = Some (Layout.row_of nTFs L)).
  { rewrite EdgesFacts.tf_id_value by exact HT.
    now rewrite LayoutFacts.row_of_value. }
  split; [exact E|].
  rewrite E. apply LayoutFacts.subscript_within. lia.
Qed.

Lemma edges_from_names_the_row_witness :
  Edges.linear_index 2 (Layout.col_of 2 6) (Layout.row_of 2 6) = 6
  /\ Edges.tf_id 2 2 (Some 6) = Some (Layout.row_of 2 6)
  /\ exists name,
       Edges.subscript ["tf1"; "tf2"] (Edges.tf_id 2 2 (Some 6)) = Some name
       /\ nth_error ["tf1"; "tf2"] (Z.to_nat (Layout.row_of 2 6 - 1)) = Some name.
Proof.
  apply (edges_from_names_the_row 2 3 6 ["tf1"; "tf2"]); [lia | lia | reflexivity].
Defined.

(** The gene of an edge is the right one except at the multiples of the
    row count: when [L] is not a multiple of [nTFs], the index computed for
    [edges$to] is the column in which position [L] lies; when it is, the
    index is one more than that column, so that, short of the last column,
    the edge is given the name of the gene in the following column. *)
Theorem edges_to_names_the_column_or_the_next (nTFs nGenes L : Z)
        (colnames : list string)
        (HT : 0 < nTFs) (HL : 1 <= L <= nTFs * nGenes)
        (HC : Z.of_nat (List.length colnames) = nGenes) :
  (~ (nTFs | L) ->
   Edges.gene_id nTFs (Some L) = Some (Layout.col_of nTFs L)
   /\ exists name,
        Edges.subscript colnames (Edges.gene_id nTFs (Some L)) = Some name
        /\ nth_error colnames (Z.to_nat (Layout.col_of nTFs L - 1)) = Some name)
  /\ ((nTFs | L) ->
      Edges.gene_id nTFs (Some L) = Some (Layout.col_of nTFs L + 1)
      /\ (L < nTFs * nGenes ->
          exists name,
            Edges.subscript colnames (Edges.gene_id nTFs (Some L)) = Some name
            /\ nth_error colnames (Z.to_nat (Layout.col_of nTFs L)) = Some name)).
Proof.
  pose proof (LayoutFacts.col_of_value nTFs L HT) as Hcol.
  pose proof (LayoutFacts.col_of_bounds nTFs nGenes L HT HL) as Hb.
  assert (Hdiv : (nTFs | L) <-> L mod nTFs = 0).
  { symmetry. apply Z.mod_divide. lia. }
  rewrite EdgesFacts.gene_id_value by exact HT.
  split; intros Hd.
  - destruct (Z.eqb_spec (L mod nTFs) 0) as [Hz|Hz];
      [exfalso; apply Hd, Hdiv, Hz|].
    rewrite Hcol. split; [reflexivity|].
    rewrite <- Hcol. apply LayoutFacts.subscript_within. lia.
  - apply Hdiv in Hd.
    destruct (Z.eqb_spec (L mod nTFs) 0) as [Hz|Hz]; [|contradiction].
    rewrite Hcol. split; [reflexivity|].
    intros Hlt. rewrite <- Hcol.
    assert (Hnext : Layout.col_of nTFs L + 1 <= nGenes).
    { rewrite Hcol. pose proof (Z.div_mod L nTFs ltac:(lia)).
      assert (L / nTFs < nGenes) by (apply Z.div_lt_upper_bound; lia). lia. }
    destruct (LayoutFacts.subscript_within colnames (Layout.col_of nTFs L + 1)
                ltac:(lia)) as (name & H1 & H2).
    exists name. split; [exact H1|].
    replace (Z.to_nat (Layout.col_of nTFs L)) with
      (Z.to_nat (Layout.col_of nTFs L + 1 - 1)) by (f_equal; lia).
    exact H2.
Qed.

Lemma edges_to_names_the_column_or_the_next_witness :
  (~ (2 | 4) ->
   Edges.gene_id 2 (Some 4) = Some (Layout.col_of 2 4)
   /\ exists name,
        Edges.subscript ["g1"; "g2"; "g3"] (Edges.gene_id 2 (Some 4)) = Some name
        /\ nth_error ["g1"; "g2"; "g3"] (Z.to_nat (Layout.col_of 2 4 - 1)) = Some name)
  /\ ((2 | 4) ->
      Edges.gene_id 2 (Some 4) = Some (Layout.col_of 2 4 + 1)
      /\ (4 < 2 * 3 ->
          exists name,
            Edges.subscript ["g1"; "g2"; "g3"] (Edges.gene_id 2 (Some 4)) = Some name
            /\ nth_error ["g1"; "g2"; "g3"] (Z.to_nat (Layout.col_of 2 4)) = Some name)).
Proof.
  apply (edges_to_names_the_column_or_the_next 2 3 4 ["g1"; "g2"; "g3"]);
    [lia | lia | reflexivity].
Defined.

(** Position 4 of a matrix with two rows lies in column 2, and the edge is
    given the name of column 3. *)
Example edge_shifted_to_the_next_gene :
  Layout.col_of 2 4 = 2
  /\ Edges.edges_to ["g1"; "g2"; "g3"] 2 [4] 1 = [Some "g3"].
Proof. split; reflexivity. Qed.

(** For [nDiffs] of at least 1, the edge table has [nDiffs] rows whatever
    the size of the matrix: when the matrix has fewer entries than that, the
    rows past its last entry have a missing TF and a missing gene. *)
Theorem edges_rows_past_the_matrix (colnames rownames : list string)
        (dim1 nTFs : Z) (aa : list Z) (nDiffs : nat) (H : (1 <= nDiffs)%nat) :
  List.length (Edges.edges_to colnames dim1 aa nDiffs) = nDiffs
  /\ List.length (Edges.edges_from rownames dim1 nTFs aa nDiffs) = nDiffs
  /\ forall i, (List.length aa <= i < nDiffs)%nat ->
       nth_error (Edges.edges_to colnames dim1 aa nDiffs) i = Some None
       /\ nth_error (Edges.edges_from rownames dim1 nTFs aa nDiffs) i = Some None.
Proof.
  clear H.
  unfold Edges.edges_to, Edges.edges_from, Edges.geneIdsTop, Edges.tfIdsTop,
    Edges.leading, Edges.one_to.
  rewrite !length_map, length_seq.
  split; [reflexivity|]. split; [reflexivity|].
  intros i Hi.
  assert (Hseq : nth_error (seq 1 nDiffs) i = Some (S i)).
  { rewrite nth_error_nth' with (d := O) by (rewrite length_seq; lia).
    rewrite seq_nth by lia. reflexivity. }
  assert (Hna : Edges.subscript aa (Some (Z.of_nat (S i))) = None).
  { apply EdgesFacts.subscript_beyond. lia. }
  rewrite !map_map.
  rewrite !nth_error_map, Hseq. cbn [option_map].
  rewrite Hna. split; reflexivity.
Qed.

(** A matrix with two TFs and one gene, and three edges asked for. *)
Lemma edges_rows_past_the_matrix_witness :
  List.length (Edges.edges_to ["g1"] 2 [2; 1] 3) = 3%nat
  /\ List.length (Edges.edges_from ["tf1"; "tf2"] 2 2 [2; 1] 3) = 3%nat
  /\ forall i, (List.length [2; 1] <= i < 3)%nat ->
       nth_error (Edges.edges_to ["g1"] 2 [2; 1] 3) i = Some None
       /\ nth_error (Edges.edges_from ["tf1"; "tf2"] 2 2 [2; 1] 3) i = Some None.
Proof.
  apply (edges_rows_past_the_matrix ["g1"] ["tf1"; "tf2"] 2 2 [2; 1] 3). lia.
Defined.

(* ----------------------------------------------------------------- *)
(** ** The node table (cells 41 and 49) *)

Module NodesFacts.
Import Nodes.

Lemma name_eqb_eq (a b : name) : name_eqb a b = true <-> a = b.
Proof.
  destruct a as [x|], b as [y|]; simpl; try (split; congruence).
  rewrite String.eqb_eq. split; congruence.
Qed.

Lemma is_in_In (x : name) (l : list name) : is_in x l = true <-> List.In x l.
Proof.
  unfold is_in. rewrite existsb_exists. split.
  - intros (y & Hy & E). apply name_eqb_eq in E. now subst.
  - intros H. exists x. split; [exact H | now apply name_eqb_eq].
Qed.

Lemma unique_In (x : name) (l : list name) : List.In x (unique l) <-> List.In x l.
Proof.
  induction l as [|y l IH]; simpl; [tauto|].
  rewrite filter_In, IH, negb_true_iff.
  destruct (name_eqb y x) eqn:E.
  - apply name_eqb_eq in E. subst. split; [now left | intros _; now left].
  - assert (y <> x) by (intros ->; rewrite (proj2 (name_eqb_eq x x) eq_refl) in E;
                        discriminate).
    tauto.
Qed.

Lemma unique_NoDup (l : list name) : NoDup (unique l).
Proof.
  induction l as [|y l IH]; simpl; constructor.
  - rewrite filter_In, negb_true_iff.
    intros [_ E]. rewrite (proj2 (name_eqb_eq y y) eq_refl) in E. discriminate.
  - now apply NoDup_filter.
Qed.

Lemma ids_of_nodes (from to : list name) :
  map id (nodes from to) = unique (endpoints from to).
Proof.
  unfold nodes. rewrite map_map. apply map_id.
Qed.

Lemma ids_In (from to : list name) (x : name) :
  List.In x (map id (nodes from to)) <-> List.In x from \/ List.In x to.
Proof.
  rewrite ids_of_nodes, unique_In. unfold endpoints. apply in_app_iff.
Qed.

End NodesFacts.

(** The nodes are the endpoints of the edges, each once: no name is listed
    twice in [nodes$id], a name is listed exactly when it occurs in
    [edges$from] or in [edges$to], and every node carries its name as
    label. *)
Theorem nodes_are_the_endpoints_once (from to : list Nodes.name) :
  NoDup (map Nodes.id (Nodes.nodes from to))
  /\ (forall x, List.In x (map Nodes.id (Nodes.nodes from to))
                <-> List.In x from \/ List.In x to)
  /\ (forall n, List.In n (Nodes.nodes from to) -> Nodes.label n = Nodes.id n).
Proof.
  rewrite NodesFacts.ids_of_nodes. split; [apply NodesFacts.unique_NoDup|].
  split.
  - intros x. rewrite <- NodesFacts.ids_of_nodes. apply NodesFacts.ids_In.
  - intros n Hn. unfold Nodes.nodes in Hn.
    apply in_map_iff in Hn as (x & <- & _). reflexivity.
Qed.

(** A node is in the group "TF" exactly when its name is the source of
    some edge, and in the group "gene" otherwise; so a name that is both a
    source and a target is a "TF", and every "gene" is a target. *)
Theorem node_group_follows_the_sources (from to : list Nodes.name) (n : Nodes.node)
        (H : List.In n (Nodes.nodes from to)) :
  (Nodes.group n = "TF" <-> List.In (Nodes.id n) from)
  /\ (Nodes.group n = "gene" <-> ~ List.In (Nodes.id n) from)
  /\ (Nodes.group n = "gene" -> List.In (Nodes.id n) to).
Proof.
  assert (Hid : List.In (Nodes.id n) from \/ List.In (Nodes.id n) to).
  { apply NodesFacts.ids_In, in_map, H. }
  unfold Nodes.nodes in H. apply in_map_iff in H as (x & <- & _).
  cbn [Nodes.group Nodes.id] in *. unfold Nodes.group_of.
  destruct (Nodes.is_in x from) eqn:E.
  - apply NodesFacts.is_in_In in E.
    repeat split; try discriminate; tauto.
  - assert (~ List.In x from).
    { intros Hin. apply NodesFacts.is_in_In in Hin. congruence. }
    repeat split; try discriminate; tauto.
Qed.

Lemma node_group_follows_the_sources_witness :
  let from := [Some "tf1"; Some "tf2"] in
  let to := [Some "g1"; Some "tf1"] in
  let n := Nodes.Node (Some "tf1") (Some "tf1") "TF" in
  List.In n (Nodes.nodes from to)
  /\ (Nodes.group n = "TF" <-> List.In (Nodes.id n) from)
  /\ (Nodes.group n = "gene" <-> ~ List.In (Nodes.id n) from)
  /\ (Nodes.group n = "gene" -> List.In (Nodes.id n) to).
Proof.
  cbv zeta.
  assert (Hin : List.In (Nodes.Node (Some "tf1") (Some "tf1") "TF")
                        (Nodes.nodes [Some "tf1"; Some "tf2"] [Some "g1"; Some "tf1"])).
  { vm_compute. tauto. }
  split; [exact Hin|].
  exact (node_group_follows_the_sources _ _ _ Hin).
Defined.

(* ----------------------------------------------------------------- *)
(** ** Colours *)

Module ColoursFacts.
Import Colours.

Lemma store_at_length {A : Type} (pre post : list (option A)) (x v : option A) :
  store (List.length pre) (pre ++ x :: post) v = pre ++ v :: post.
Proof.
  induction pre as [|y pre IH]; simpl; [reflexivity | now rewrite IH].
Qed.

(** What [x[which(m)] <- v] does to each entry. *)
Definition overlay {A : Type} (x : list (option A)) (m : list lgl) (v : option A)
  : list (option A) :=
  map (fun p => match snd p with Some true => v | _ => fst p end) (combine x m).

Lemma assign_from {A : Type} (v : option A) (m : list lgl) :
  forall (x pre : list (option A)),
    List.length x = List.length m ->
    assign (pre ++ x) (which_from (S (List.length pre)) m) v
    = pre ++ overlay x m v.
Proof.
  unfold assign.
  induction m as [|b m IH]; intros x pre Hlen.
  - destruct x; [reflexivity | discriminate].
  - destruct x as [|y x]; [discriminate|].
    injection Hlen as Hlen.
    assert (Hnext : forall z,
               fold_left (fun x0 i => store (i - 1) x0 v)
                         (which_from (S (S (List.length pre))) m) (pre ++ z :: x)
               = pre ++ z :: overlay x m v).
    { intros z. specialize (IH x (pre ++ [z]) Hlen).
      rewrite length_app, Nat.add_1_r, <- !app_assoc in IH. exact IH. }
    destruct b as [[|]|]; cbn [which_from fold_left overlay combine map fst snd].
    + replace (S (List.length pre) - 1)%nat with (List.length pre) by lia.
      rewrite store_at_length. apply Hnext.
    + apply Hnext.
    + apply Hnext.
Qed.

Lemma assign_which {A : Type} (x : list (option A)) (m : list lgl) (v : option A) :
  List.length x = List.length m -> assign x (which m) v = overlay x m v.
Proof.
  intros H. exact (assign_from v m x [] H).
Qed.

Lemma overlay_length {A : Type} (x : list (option A)) (m : list lgl) (v : option A) :
  List.length x = List.length m -> List.length (overlay x m v) = List.length x.
Proof.
  intros H. unfold overlay. rewrite length_map, length_combine. lia.
Qed.

Lemma colours_overlaid (NES : list num) :
  overlay (overlay (List.repeat None (List.length NES)) (map lt0 NES) (Some dencol_neg))
          (map gt0 NES) (Some dencol_pos)
  = map label_colour NES.
Proof.
  induction NES as [|v NES IH]; [reflexivity|].
  cbn [List.length List.repeat map overlay combine fst snd] in *.
  unfold overlay in IH. rewrite IH. f_equal.
  destruct v as [[n d]|]; [|reflexivity].
  cbn [lt0 gt0 option_map label_colour Qnum].
  destruct (Z.ltb_spec n 0), (Z.ltb_spec 0 n); try reflexivity; lia.
Qed.

End ColoursFacts.

(** Colouring the differential edges loses nothing: from the colour and
    the magnitude that cell 47 leaves in [edges], the signed difference is
    read back, green standing for a positive difference and red for a
    negative one or for zero; the magnitude is never negative, and a missing
    difference has neither colour nor magnitude. *)
Theorem edge_colour_and_magnitude_keep_the_sign (v : Colours.num) :
  Colours.signed (Colours.edge_color v) (Colours.abs v) = v
  /\ (forall q, Colours.abs v = Some q -> 0 <= Qnum q)
  /\ (Colours.edge_color v = Some "green" <-> exists q, v = Some q /\ 0 < Qnum q)
  /\ (Colours.edge_color v = None <-> v = None).
Proof.
  destruct v as [[n d]|]; cbn.
  - destruct (Z.ltb_spec 0 n) as [Hn|Hn]; cbn.
    + repeat split; try discriminate.
      * now rewrite Z.abs_eq by lia.
      * intros q [= <-]. cbn. lia.
      * intros _. exists (n # d). split; [reflexivity | exact Hn].
    + repeat split; try discriminate.
      * unfold Qopp. cbn. f_equal. f_equal. lia.
      * intros q [= <-]. cbn. lia.
      * intros (q & [= <-] & Hq). cbn in Hq. lia.
  - repeat split; try discriminate; try reflexivity.
    intros (q & Hq & _). discriminate.
Qed.

(** The label colours of the bubble plot: [signcol] has one entry per row
    of [dat2], in reverse order of the rows; the entry of a row is blue when
    its NES is negative, red when it is positive, and missing when it is
    zero or missing. *)
Theorem signcol_is_the_reversed_colours (NES : list Colours.num) :
  Colours.signcol NES = rev (map Colours.label_colour NES)
  /\ List.length (Colours.signcol NES) = List.length NES.
Proof.
  assert (E : Colours.signcol NES = rev (map Colours.label_colour NES)).
  { unfold Colours.signcol. cbv zeta. f_equal.
    rewrite (ColoursFacts.assign_which (List.repeat None (List.length NES))
                                       (map Colours.lt0 NES))
      by (now rewrite repeat_length, length_map).
    rewrite ColoursFacts.assign_which.
    - apply ColoursFacts.colours_overlaid.
    - rewrite ColoursFacts.overlay_length
        by (now rewrite repeat_length, length_map).
      now rewrite repeat_length, length_map. }
  split; [exact E|].
  now rewrite E, length_rev, length_map.
Qed.

(** Rows of [dat] with a missing adjusted p-value are not dropped by the
    cut of cell 73: each of them yields a row of missing values in [dat2].
    When no adjusted p-value is missing, [dat2] is made of the rows below
    the cut, in order. *)
Theorem significant_keeps_missing_rows (A : Type) (dat : list A)
        (padj : list Colours.num) (H : List.length dat = List.length padj) :
  List.length (Colours.significant dat padj)
  = (List.length (filter (fun p => match Colours.below Colours.fdrcut p with
                                   | Some true => true | _ => false end) padj)
     + List.length (filter (fun p => match p with None => true | _ => false end) padj))%nat
  /\ List.length (filter (fun r => match r with None => true | _ => false end)
                         (Colours.significant dat padj))
     = List.length (filter (fun p => match p with None => true | _ => false end) padj)
  /\ (Forall (fun p => p <> None) padj ->
      Colours.significant dat padj
      = map Some (map fst (filter (fun rp => match Colours.below Colours.fdrcut (snd rp) with
                                             | Some true => true | _ => false end)
                                  (combine dat padj)))).
Proof.
  unfold Colours.significant.
  revert padj H. induction dat as [|r dat IH]; intros [|p padj] H;
    try discriminate; [repeat split; reflexivity|].
  injection H as H. destruct (IH padj H) as (IH1 & IH2 & IH3).
  destruct p as [q|]; cbn [map Expression.pick Colours.below option_map filter
                           List.length combine fst snd].
  - destruct (negb (Qle_bool Colours.fdrcut q));
      cbn [List.length filter map fst snd].
    + repeat split.
      * now rewrite IH1.
      * exact IH2.
      * intros HF. inversion HF; subst. now rewrite IH3.
    + repeat split.
      * exact IH1.
      * exact IH2.
      * intros HF. inversion HF; subst. now rewrite IH3.
  - repeat split.
    + rewrite IH1. lia.
    + now rewrite IH2.
    + intros HF. inversion HF; subst. congruence.
Qed.

Lemma significant_keeps_missing_rows_witness :
  List.length (Colours.significant ["a"; "b"; "c"] [Some 0.01%Q; None; Some 0.5%Q]) = 2%nat
  /\ Colours.significant ["a"; "b"; "c"] [Some 0.01%Q; None; Some 0.5%Q]
     = [Some "a"; None].
Proof.
  split; [|reflexivity].
  exact (proj1 (significant_keeps_missing_rows
                  string ["a"; "b"; "c"] [Some 0.01%Q; None; Some 0.5%Q] eq_refl)).
Defined.

(* ----------------------------------------------------------------- *)
(** ** Choosing columns, and the filter seen from the chosen columns *)

Module SamplesFacts.
Import Samples.

Lemma member_In (x : string) (ids : list string) :
  member x ids = true <-> List.In x ids.
Proof.
  unfold member. rewrite existsb_exists. split.
  - intros (y & Hy & E). apply String.eqb_eq in E. now subst.
  - intros H. exists x. split; [exact H | apply String.eqb_refl].
Qed.

Lemma keep_by_test {A : Type} (p : A -> bool) (x : list A) :
  keep (map p x) x = filter p x.
Proof.
  induction x as [|a x IH]; simpl; [reflexivity|].
  destruct (p a); now rewrite IH.
Qed.

Lemma chosen_header (header ids : list string) :
  keep (mask header ids) header = filter (fun h => member h ids) header.
Proof. apply keep_by_test. Qed.

(** The entries kept of a row are those that stand under a column name
    that passes the test. *)
Lemma keep_under_names {A : Type} (p : string -> bool) (header : list string) :
  forall row : list A,
    keep (map p header) row
    = map snd (filter (fun hv => p (fst hv)) (combine header row)).
Proof.
  induction header as [|h header IH]; intros [|v row]; simpl; try reflexivity.
  - now destruct (p h).
  - destruct (p h); simpl; now rewrite IH.
Qed.

Lemma keep_none {A : Type} (p : string -> bool) (header : list string) :
  filter p header = [] -> forall row : list A, keep (map p header) row = [].
Proof.
  induction header as [|h header IH]; intros H [|v row]; simpl in *;
    try reflexivity.
  - now destruct (p h).
  - destruct (p h); [discriminate | now apply IH].
Qed.

(** When one name passes the test, the entry kept of a row is the entry
    at the position of that name. *)
Lemma keep_single {A : Type} (p : string -> bool) (header : list string) (h : string) :
  filter p header = [h] ->
  exists k,
    nth_error header k = Some h
    /\ forall row : list A,
         List.length row = List.length header ->
         exists v, keep (map p header) row = [v] /\ nth_error row k = Some v.
Proof.
  induction header as [|a header IH]; simpl; [discriminate|].
  destruct (p a) eqn:Pa; intros H.
  - injection H as -> Hrest. exists O. split; [reflexivity|].
    intros [|v row] Hlen; [discriminate|].
    exists v. simpl. now rewrite (keep_none p header Hrest).
  - destruct (IH H) as (k & Hk & Hrows). exists (S k). split; [exact Hk|].
    intros [|v row] Hlen; [discriminate|].
    injection Hlen as Hlen. destruct (Hrows row Hlen) as (u & Hu & Hnth).
    exists u. simpl. now split.
Qed.

Lemma column_values {A : Type} (f : list A -> list A) (k n : nat) (rows : list (list A)) :
  (forall row, List.length row = n ->
               exists v, f row = [v] /\ nth_error row k = Some v) ->
  Forall (fun row => List.length row = n) rows ->
  Forall2 (fun row v => nth_error row k = Some v) rows (flat_map f rows).
Proof.
  intros Hf. induction 1 as [|row rows Hrow _ IH]; simpl; [constructor|].
  destruct (Hf row Hrow) as (v & -> & Hv). simpl. now constructor.
Qed.

Lemma present_some {A : Type} (l : list A) : present (map Some l) = l.
Proof.
  unfold present. induction l as [|a l IH]; simpl; [reflexivity | now rewrite IH].
Qed.

Section Counting.

Context {num : Type} (is_zero : num -> bool).

Abbreviation valid := (Expression.valid_entries num is_zero).

Lemma valid_cons (e : Expression.entry num) (x : list (Expression.entry num)) :
  valid (e :: x)
  = ((if match e with Some v => negb (is_zero v) | None => false end then 1 else 0)
     + valid x)%nat.
Proof.
  unfold Expression.valid_entries. simpl.
  destruct e as [v|]; [destruct (is_zero v)|]; reflexivity.
Qed.

Lemma valid_le_length (x : list (Expression.entry num)) :
  (valid x <= List.length x)%nat.
Proof.
  unfold Expression.valid_entries. apply filter_length_le.
Qed.

Lemma valid_split (m : list bool) :
  forall x : list (Expression.entry num),
    List.length m = List.length x ->
    (valid (keep m x) + valid (keep (map negb m) x) = valid x)%nat.
Proof.
  induction m as [|b m IH]; intros [|e x] H; try discriminate; [reflexivity|].
  injection H as H. specialize (IH x H).
  destruct b; cbn [map negb keep]; rewrite !valid_cons; lia.
Qed.

End Counting.

End SamplesFacts.

(** The columns chosen for a tissue are the columns of the table whose
    name is among the sample ids, in the order of the table: ids that name
    no column are ignored, and the order and repetitions of the ids play no
    part.  The result is a data frame unless exactly one column is chosen:
    its column names are the chosen names and each of its rows holds the
    entries of the row of the table that stand under a chosen name, in
    order.  When exactly one column is chosen the result is that column
    alone, as a vector: one value for each row of the table, the entry of
    the row at the position of the chosen name. *)
Theorem select_columns_by_membership (A : Type) (header : list string)
        (rows : list (list A)) (ids : list string) (H : NoDup header)
        (Hrect : Forall (fun row => List.length row = List.length header) rows) :
  let chosen := filter (fun h => Samples.member h ids) header in
  (forall x, List.In x chosen <-> List.In x header /\ List.In x ids)
  /\ NoDup chosen
  /\ match Samples.select_columns header rows ids with
     | Samples.Frame names table =>
         names = chosen /\ List.length chosen <> 1%nat
         /\ table
            = map (fun row =>
                     map snd (filter (fun hv => Samples.member (fst hv) ids)
                                     (combine header row))) rows
     | Samples.Column values =>
         exists h k,
           chosen = [h] /\ nth_error header k = Some h
           /\ Forall2 (fun row v => nth_error row k = Some v) rows values
     end.
Proof.
  cbv zeta. split; [|split].
  - intros x. rewrite filter_In, SamplesFacts.member_In. tauto.
  - now apply NoDup_filter.
  - assert (Htable :
      map (Samples.keep (Samples.mask header ids)) rows
      = map (fun row =>
               map snd (filter (fun hv => Samples.member (fst hv) ids)
                               (combine header row))) rows).
    { apply map_ext. intros row.
      apply (SamplesFacts.keep_under_names (fun h => Samples.member h ids)). }
    unfold Samples.select_columns. cbv zeta.
    rewrite SamplesFacts.chosen_header.
    destruct (filter (fun h => Samples.member h ids) header) as [|a [|b l]] eqn:E.
    + repeat split; [discriminate | exact Htable].
    + destruct (SamplesFacts.keep_single (A := A) _ header a E) as (k & Hk & Hrows).
      exists a, k. repeat split; [exact Hk|].
      now apply (SamplesFacts.column_values _ k (List.length header)).
    + repeat split; [discriminate | exact Htable].
Qed.

Lemma select_columns_by_membership_witness :
  let header := ["GTEX-1"; "GTEX-2"; "GTEX-3"] in
  let rows := [[1; 2; 3]; [4; 5; 6]] in
  let ids := ["GTEX-3"; "GTEX-9"; "GTEX-1"; "GTEX-3"] in
  let chosen := filter (fun h => Samples.member h ids) header in
  NoDup header
  /\ Forall (fun row => List.length row = List.length header) rows
  /\ (forall x, List.In x chosen <-> List.In x header /\ List.In x ids)
  /\ NoDup chosen
  /\ match Samples.select_columns header rows ids with
     | Samples.Frame names table =>
         names = chosen /\ List.length chosen <> 1%nat
         /\ table
            = map (fun row =>
                     map snd (filter (fun hv => Samples.member (fst hv) ids)
                                     (combine header row))) rows
     | Samples.Column values =>
         exists h k,
           chosen = [h] /\ nth_error header k = Some h
           /\ Forall2 (fun row v => nth_error row k = Some v) rows values
     end.
Proof.
  cbv zeta.
  assert (Hnd : NoDup ["GTEX-1"; "GTEX-2"; "GTEX-3"]).
  { repeat constructor; simpl; intuition discriminate. }
  assert (Hrect : Forall (fun row : list Z => List.length row = 3%nat)
                         [[1; 2; 3]; [4; 5; 6]]).
  { repeat constructor. }
  split; [exact Hnd|].
  split; [exact Hrect|].
  exact (select_columns_by_membership Z ["GTEX-1"; "GTEX-2"; "GTEX-3"]
           [[1; 2; 3]; [4; 5; 6]]
           ["GTEX-3"; "GTEX-9"; "GTEX-1"; "GTEX-3"] Hnd Hrect).
Defined.

(** Two ids that name columns give a data frame of those columns, in the
    order of the table; one id gives the column as a vector. *)
Example select_columns_frame_and_vector :
  Samples.select_columns ["GTEX-1"; "GTEX-2"; "GTEX-3"] [[1; 2; 3]; [4; 5; 6]]
                         ["GTEX-3"; "GTEX-9"; "GTEX-1"; "GTEX-3"]
  = Samples.Frame ["GTEX-1"; "GTEX-3"] [[1; 3]; [4; 6]]
  /\ Samples.select_columns ["GTEX-1"; "GTEX-2"; "GTEX-3"] [[1; 2; 3]; [4; 5; 6]]
                            ["GTEX-2"]
     = Samples.Column [2; 5].
Proof. split; reflexivity. Qed.

(** The count that the row filter checks is taken over all columns: for a
    row that the filter keeps, the valid entries among the columns chosen
    for a tissue and those among the other columns add up to more than 20,
    and nothing more is known of either part. *)
Theorem filter_counts_all_columns (num : Type) (is_zero : num -> bool)
        (exp : list (list (Expression.entry num))) (header ids : list string)
        (row : list (Expression.entry num))
        (Hrow : List.In (Some row) (Expression.filtered num is_zero exp))
        (Hlen : List.length row = List.length header) :
  let m := Samples.mask header ids in
  (Expression.valid_entries num is_zero (Samples.keep m row)
   + Expression.valid_entries num is_zero (Samples.keep (map negb m) row)
   = Expression.valid_entries num is_zero row)%nat
  /\ (20 < Expression.valid_entries num is_zero (Samples.keep m row)
           + Expression.valid_entries num is_zero (Samples.keep (map negb m) row))%nat.
Proof.
  cbv zeta.
  assert (Hm : List.length (Samples.mask header ids) = List.length row).
  { unfold Samples.mask. now rewrite length_map. }
  pose proof (SamplesFacts.valid_split is_zero _ row Hm) as Hsplit.
  split; [exact Hsplit|].
  rewrite Hsplit.
  rewrite ExpressionFacts.filtered_is_filter in Hrow.
  apply in_map_iff in Hrow as (y & [= ->] & Hy).
  apply filter_In in Hy as [_ Hy]. now apply Nat.ltb_lt in Hy.
Qed.

(** A row that the filter keeps and of which the LCL table holds no valid
    entry. *)
Lemma filter_counts_all_columns_witness :
  List.In (Some Samples.lopsided_row) (Expression.filtered Z (Z.eqb 0) [Samples.lopsided_row])
  /\ Expression.valid_entries Z (Z.eqb 0)
       (Samples.keep (Samples.mask Samples.lopsided_header ["LCL-1"]) Samples.lopsided_row) = 0%nat
  /\ (20 < Expression.valid_entries Z (Z.eqb 0)
             (Samples.keep (Samples.mask Samples.lopsided_header ["LCL-1"]) Samples.lopsided_row)
           + Expression.valid_entries Z (Z.eqb 0)
               (Samples.keep (map negb (Samples.mask Samples.lopsided_header ["LCL-1"]))
                             Samples.lopsided_row))%nat.
Proof.
  assert (Hin : List.In (Some Samples.lopsided_row)
                        (Expression.filtered Z (Z.eqb 0) [Samples.lopsided_row])).
  { vm_compute. tauto. }
  split; [exact Hin|]. split; [reflexivity|].
  exact (proj2 (filter_counts_all_columns Z (Z.eqb 0) [Samples.lopsided_row]
                  Samples.lopsided_header ["LCL-1"] Samples.lopsided_row Hin eq_refl)).
Defined.

(** A table with at most 20 columns loses every row: no row can have more
    than 20 valid entries. *)
Theorem filter_empties_narrow_tables (num : Type) (is_zero : num -> bool)
        (exp : list (list (Expression.entry num)))
        (H : forall row, List.In row exp -> (List.length row <= 20)%nat) :
  Expression.filtered num is_zero exp = [].
Proof.
  rewrite ExpressionFacts.filtered_is_filter.
  replace (filter (fun x => (20 <? Expression.valid_entries num is_zero x)%nat) exp)
    with (@nil (list (Expression.entry num))); [reflexivity|].
  symmetry. induction exp as [|row exp IH]; [reflexivity|].
  simpl.
  pose proof (SamplesFacts.valid_le_length is_zero row) as Hv.
  pose proof (H row (or_introl eq_refl)) as Hr.
  destruct (Nat.ltb_spec 20 (Expression.valid_entries num is_zero row)); [lia|].
  apply IH. intros r Hin. apply H. now right.
Qed.

Lemma filter_empties_narrow_tables_witness :
  Expression.filtered Z (Z.eqb 0) [List.repeat (Some 5) 20; List.repeat (Some 1) 3] = [].
Proof.
  apply (filter_empties_narrow_tables Z (Z.eqb 0)).
  intros row [<- | [<- | []]]; simpl; lia.
Defined.



(* ----------------------------------------------------------------- *)
(** ** The DRAGON notebook: what the p-value call gets right *)

(** With a library whose simulated data have the documented shapes, the
    sample size passed to [estimate_p_values_dragon] is the number of rows
    of [X1] and of [X2], and the two variable counts passed to it add up to
    the number of columns of [X1] and [X2] together: of the three numbers
    only the order of the last two is off. *)
Theorem pvalue_call_total_and_rows_agree (L : DragonRun.library)
        (H : DragonRun.documented_shapes L) :
  let v := DragonRun.dragon_tutorial L in
  fst (DragonRun.shape L (DragonRun.X1 v)) = DragonRun.n v
  /\ fst (DragonRun.shape L (DragonRun.X2 v)) = DragonRun.n v
  /\ DragonRun.p1 v + DragonRun.p2 v
     = DragonRun.columns L (DragonRun.X1 v) + DragonRun.columns L (DragonRun.X2 v).
Proof.
  destruct H as [Hsim Hscale].
  specialize (Hsim 0.005%Q 0.005%Q 0.05%Q 100 500 [0.1%Q; 0.1%Q] 1000 123).
  unfold DragonRun.dragon_tutorial, DragonRun.columns.
  destruct (DragonRun.simulate_dragon_data L 0.005%Q 0.005%Q 0.05%Q 100 500
              [0.1%Q; 0.1%Q] 1000 123) as [[[A B] T] U].
  destruct Hsim as [HA HB].
  destruct (DragonRun.estimate_penalty_parameters_dragon L
              (DragonRun.Scale L A) (DragonRun.Scale L B)) as [lam land].
  destruct (DragonRun.estimate_p_values_dragon L
              (DragonRun.get_partial_correlation_dragon L
                 (DragonRun.Scale L A) (DragonRun.Scale L B) lam)
              1000 500 100 lam) as [adj p].
  cbn -[Z.of_nat].
  rewrite !Hscale, HA, HB. cbn. repeat split; reflexivity.
Qed.

Lemma pvalue_call_total_and_rows_agree_witness :
  DragonRun.documented_shapes DragonRun.toy
  /\ fst (DragonRun.shape DragonRun.toy
            (DragonRun.X1 (DragonRun.dragon_tutorial DragonRun.toy)))
     = DragonRun.n (DragonRun.dragon_tutorial DragonRun.toy).
Proof.
  assert (Hdoc : DragonRun.documented_shapes DragonRun.toy).
  { split; [intros; cbn; split; reflexivity | intros; reflexivity]. }
  split; [exact Hdoc|].
  exact (proj1 (pvalue_call_total_and_rows_agree DragonRun.toy Hdoc)).
Defined.
